(** * temperature-ds18s20-stanley-driver: the sensor reader and the run
      orchestrator of [temperature_ds18s20_stanley_driver/__main__.py]

    The development follows the module top to bottom:

    - [Text]      Python [str] values and the character classes of [re];
    - [Regex]     the two compiled patterns and [Pattern.match];
    - [Float]     binary64 values, [float(str)] and true division;
    - [Sys]       the world a run lives in (process environment, sensor
                  files, clock, archive server) and the trace of the calls
                  that leave the process;
    - [Reader]    [trap_nan] and [read_ds18s20_temperature];
    - [Driver]    [setup_logging], [async_main] and [main];
    - [Run]       vocabulary for what a run did;
    - [Sample]    a sample installation;
    - [Shape]     the two patterns without their leading [.*], and a few
                  words about texts;
    - [Expected]  the trace a run is expected to leave.

    The properties follow the definitions, in the same order.

    A character is a code point below 256 ([ascii]); the w1 kernel driver
    writes 7-bit text.  Floating point values are the [spec_float] values
    of the Standard Library at precision 53 and maximal exponent 1024. *)

From Stdlib Require Import ZArith String Ascii List Lia.
From Stdlib Require Import Floats.SpecFloat.
From stdpp Require Import base option list strings gmap.

Open Scope string_scope.
Open Scope list_scope.

(* ===================================================================== *)
(** ** Text *)
(* ===================================================================== *)

Module Text.

(** A Python [str] is a sequence of code points. *)
Definition chars : Type := list ascii.

Definition code (c : ascii) : N := N_of_ascii c.

Definition between (lo hi : N) (c : ascii) : bool :=
  ((lo <=? code c) && (code c <=? hi))%N.

(** [\d] on [str] patterns: the decimal digits.  Below code point 256
    these are ['0'..'9'] only. *)
Definition is_digit (c : ascii) : bool := between 48 57 c.

(** [\w] on [str] patterns: alphanumerics ([str.isalnum]) and the
    underscore.  Below 256 that is the ASCII letters and digits, [_], and
    the Latin-1 letters and numeric signs. *)
Definition is_word (c : ascii) : bool :=
  between 48 57 c || between 65 90 c || between 95 95 c
  || between 97 122 c || between 170 170 c || between 178 179 c
  || between 181 181 c || between 185 186 c || between 188 190 c
  || between 192 214 c || between 216 246 c || between 248 255 c.

(** [.] without [re.DOTALL]: anything but a line feed. *)
Definition is_dot (c : ascii) : bool := negb (code c =? 10)%N.

Definition newline : ascii := "010"%char.

(** [content.split("\n")]: always at least one piece. *)
Fixpoint split_lines (content : string) : list string :=
  match content with
  | EmptyString => [EmptyString]
  | String c rest =>
      if Ascii.eqb c newline then EmptyString :: split_lines rest
      else match split_lines rest with
           | line :: lines => String c line :: lines
           | [] => [String c EmptyString]
           end
  end.

(** [s[:n]] *)
Definition prefix (n : nat) (s : string) : string :=
  string_of_list_ascii (take n (list_ascii_of_string s)).

End Text.

(* ===================================================================== *)
(** ** Regular expressions *)
(* ===================================================================== *)

Module Regex.
Import Text.

Inductive charset : Type :=
| AnyChar                 (* .  *)
| WordChar                (* \w *)
| DigitChar               (* \d *)
| Literal (c : ascii).

Definition in_charset (cs : charset) (c : ascii) : bool :=
  match cs with
  | AnyChar => is_dot c
  | WordChar => is_word c
  | DigitChar => is_digit c
  | Literal c' => Ascii.eqb c' c
  end.

(** The fragment of [re] syntax the two patterns are written in.  All
    quantifiers are greedy, alternation is ordered, and quantifiers apply
    to single-character classes. *)
Inductive regex : Type :=
| Eps
| Chr (cs : charset)
| Star (cs : charset)               (* cs*   *)
| Opt (r : regex)                   (* r?    *)
| Seq (r1 r2 : regex)               (* r1 r2 *)
| Alt (r1 r2 : regex)               (* r1|r2 *)
| Group (name : string) (r : regex) (* (r) or (?P<name>r) *).

Definition Plus (cs : charset) : regex := Seq (Chr cs) (Star cs).

Fixpoint Lit (s : string) : regex :=
  match s with
  | EmptyString => Eps
  | String c rest => Seq (Chr (Literal c)) (Lit rest)
  end.

(** Group bindings of one match attempt, most recent first. *)
Definition captures : Type := list (string * chars).

(** Lengths a greedy [cs*] can consume at the head of [s], in the order
    the backtracking matcher tries them: longest first. *)
Fixpoint star_lengths (cs : charset) (s : chars) : list nat :=
  match s with
  | c :: rest =>
      if in_charset cs c then (S <$> star_lengths cs rest) ++ [0] else [0]
  | [] => [0]
  end.

(** All the ways [r] matches at the head of [s], in the order the
    backtracking matcher finds them: number of characters consumed and
    the groups bound on the way. *)
Fixpoint matches (r : regex) (s : chars) : list (nat * captures) :=
  match r with
  | Eps => [(0, [])]
  | Chr cs =>
      match s with
      | c :: _ => if in_charset cs c then [(1, [])] else []
      | [] => []
      end
  | Star cs => (fun n => (n, [])) <$> star_lengths cs s
  | Opt r1 => matches r1 s ++ [(0, [])]
  | Seq r1 r2 =>
      x ← matches r1 s;
      (fun y => (x.1 + y.1, y.2 ++ x.2)) <$> matches r2 (drop x.1 s)
  | Alt r1 r2 => matches r1 s ++ matches r2 s
  | Group name r1 =>
      (fun x => (x.1, (name, take x.1 s) :: x.2)) <$> matches r1 s
  end.

(** A match object: where the match ends and what the groups hold. *)
Record Match : Type := mkMatch { m_end : nat; m_groups : captures }.

(** [pattern.match(line)]: the first way the pattern matches at position
    0, or [None]. *)
Definition re_match (pattern : regex) (line : string) : option Match :=
  (fun x => mkMatch x.1 x.2) <$> head (matches pattern (list_ascii_of_string line)).

Fixpoint lookup_group (name : string) (gs : captures) : option chars :=
  match gs with
  | [] => None
  | (n, text) :: rest =>
      if String.eqb n name then Some text else lookup_group name rest
  end.

(** [m.group(name)] *)
Definition group (m : Match) (name : string) : option string :=
  string_of_list_ascii <$> lookup_group name (m_groups m).

(** [FIRST_LINE_PATTERN = re.compile(r".*: crc=(\w\w) (?P<valid>YES|NO)")] *)
Definition FIRST_LINE_PATTERN : regex :=
  Seq (Star AnyChar)
    (Seq (Lit ": crc=")
       (Seq (Group "1" (Seq (Chr WordChar) (Chr WordChar)))
          (Seq (Lit " ")
             (Group "valid" (Alt (Lit "YES") (Lit "NO")))))).

(** [SECOND_LINE_PATTERN = re.compile(r".*t=(?P<temperature>-?\d+)")] *)
Definition SECOND_LINE_PATTERN : regex :=
  Seq (Star AnyChar)
    (Seq (Lit "t=")
       (Group "temperature"
          (Seq (Opt (Chr (Literal "-"%char))) (Plus DigitChar)))).

End Regex.


(* ===================================================================== *)
(** ** Python outcomes *)
(* ===================================================================== *)

Module Py.

(** The exceptions the module can meet. *)
Inductive exn : Type :=
| KeyError (key : string)
| ValueError (msg : string)
| TypeError (msg : string)
| RuntimeError (msg : string)
| ZeroDivisionError
| OSError (msg : string)
| UnicodeDecodeError
| OtherError (msg : string).

(** How a call ends: with a value, or with an exception on its way up. *)
Inductive outcome (A : Type) : Type :=
| Return (a : A)
| Raise (e : exn).

Arguments Return {A} a.
Arguments Raise {A} e.

End Py.

(* ===================================================================== *)
(** ** Floating point *)
(* ===================================================================== *)

Module Float.
Import Text Py.

Definition float : Type := spec_float.

Definition prec : Z := 53.
Definition emax : Z := 1024.

(** [float("nan")] *)
Definition nan : float := S754_nan.

(** The float nearest to an integer (ties to even), as when an [int]
    operand meets a [float] one. *)
Definition of_Z (n : Z) : float := binary_normalize prec emax n 0 false.

(** [x == y] on floats. *)
Definition float_eq (x y : float) : bool := SFeqb x y.

Definition is_zero (x : float) : bool :=
  match x with S754_zero _ => true | _ => false end.

(** [x / y] on floats. *)
Definition truediv (x y : float) : outcome float :=
  if is_zero y then Raise ZeroDivisionError
  else Return (SFdiv prec emax x y).

(** Value of a run of decimal digits, most significant first; [None] when
    a character is not a digit. *)
Fixpoint digits_value (acc : Z) (ds : chars) : option Z :=
  match ds with
  | [] => Some acc
  | c :: rest =>
      if is_digit c
      then digits_value (10 * acc + Z.of_N (code c - 48)) rest
      else None
  end.

(** A non-empty run of decimal digits. *)
Definition decimal (ds : chars) : option Z :=
  match ds with
  | [] => None
  | _ => digits_value 0 ds
  end.

(** [float(text)] on the texts the temperature group can hold: an
    optional minus sign, then decimal digits.  The result is the nearest
    float (ties to even; infinite beyond the largest float), and a minus
    sign in front of zeros gives the negative zero.  [float(None)] is a
    [TypeError].  Python also reads spaces, fractions, exponents and the
    like; on those this function answers [ValueError], and
    [temperature_group_is_integer_text] shows the reader never passes one. *)
Definition py_float (text : option string) : outcome float :=
  match text with
  | None => Raise (TypeError "float() argument must be a string or a number")
  | Some s =>
      match list_ascii_of_string s with
      | "-"%char :: ds =>
          match decimal ds with
          | Some n => Return (binary_normalize prec emax (- n) 0 true)
          | None => Raise (ValueError "could not convert string to float")
          end
      | ds =>
          match decimal ds with
          | Some n => Return (binary_normalize prec emax n 0 false)
          | None => Raise (ValueError "could not convert string to float")
          end
      end
  end.

(** The integer a text of the form [-?\d+] denotes (what [int(text)]
    gives).  The reader never calls it; it names the "signed integer
    millidegree value" the specification speaks of. *)
Definition int_value (text : string) : option Z :=
  match list_ascii_of_string text with
  | "-"%char :: ds => Z.opp <$> decimal ds
  | ds => decimal ds
  end.

(** [N / 1000.0] for an integer [N]: the integer goes to the nearest float
    and the two floats are divided. *)
Definition millidegrees_to_celsius (N : Z) : float :=
  SFdiv prec emax (of_Z N) (of_Z 1000).

(** The literal [21.562]: 6069163447835165 * 2^-48. *)
Definition literal_21_562 : float := S754_finite false 6069163447835165 (-48).

(** The literal [0.012]: 6917529027641082 * 2^-59. *)
Definition literal_0_012 : float := S754_finite false 6917529027641082 (-59).

End Float.

(* ===================================================================== *)
(** ** The world the process runs in *)
(* ===================================================================== *)

Module Sys.
Import Text Py Float.

(** [datetime.now(timezone)]: an instant and the zone it is expressed in. *)
Record datetime : Type := mkDatetime { instant : Z; zone : string }.

(** A [pd.Series] of floats indexed by timestamps: its points, in order. *)
Definition series : Type := list (datetime * float).

(** A [dict] with [str] keys, in insertion order. *)
Definition dict (V : Type) : Type := list (string * V).

(** [d[k] = v]: a key already there keeps its place and takes the new
    value; a new key goes last. *)
Fixpoint dict_set {V : Type} (k : string) (v : V) (d : dict V) : dict V :=
  match d with
  | [] => [(k, v)]
  | (k', v') :: rest =>
      if String.eqb k' k then (k', v) :: rest
      else (k', v') :: dict_set k v rest
  end.

(** [d.get(k)] *)
Fixpoint dict_get {V : Type} (k : string) (d : dict V) : option V :=
  match d with
  | [] => None
  | (k', v') :: rest => if String.eqb k' k then Some v' else dict_get k rest
  end.

Definition dict_keys {V : Type} (d : dict V) : list string := d.*1.

(** What [open(filename)] followed by [file.read()] meets. *)
Inductive file_state : Type :=
| CannotOpen (e : exn)
| CannotRead (e : exn)
| Holds (content : string).

(** The archive client object: what [StanleyAiohttpInterface] was built
    with. *)
Record client : Type := mkClient {
  c_url : string;
  c_ca_cert : option string;
  c_username : string;
  c_password : string;
}.

Inductive log_arg : Type :=
| AStr (s : string)
| AFloat (x : float)
| ASeries (s : series).

(** The calls of the module that reach outside it, as they happen. *)
Inductive event : Type :=
| BasicConfig (level : Z)
| LogCall (level : Z) (template : string) (args : list log_arg)
| EnvironGet (key : string)
| EnvironDel (key : string)
| NewClient (c : client)
| GetLocalzone
| OpenFile (filename : string)
| DatetimeNow
| PostReadings (c : client) (readings : dict series).

(** An event together with the process environment right after it. *)
Definition observation : Type := event * gmap string string.

(** The state a run threads through.  [files n] is what the [n]-th
    [open] of the run finds at each path and [clock n] what the [n]-th
    [datetime.now] returns, so that two reads of one sensor may differ;
    [server] is how [post_readings] ends for a payload.  The calls into
    [pystanley], [tzlocal] and [pandas] other than [post_readings] are
    taken to return normally. *)
Record World : Type := mkWorld {
  environ : gmap string string;
  files : nat -> string -> file_state;
  clock : nat -> Z;
  localzone : string;
  server : dict series -> outcome unit;
  opened : nat;
  asked : nat;
  root_level : Z;
  trace : list observation;
}.

(** Computations of the module: an outcome and the world after it. *)
Definition M (A : Type) : Type := World -> outcome A * World.

Definition ret {A : Type} (a : A) : M A := fun w => (Return a, w).

Definition raise {A : Type} (e : exn) : M A := fun w => (Raise e, w).

Definition bind {A B : Type} (m : M A) (k : A -> M B) : M B :=
  fun w =>
    match m w with
    | (Return a, w') => k a w'
    | (Raise e, w') => (Raise e, w')
    end.

Definition lift {A : Type} (o : outcome A) : M A := fun w => (o, w).

Definition record (e : event) (w : World) : World :=
  mkWorld (environ w) (files w) (clock w) (localzone w) (server w)
    (opened w) (asked w) (root_level w) (trace w ++ [(e, environ w)]).

Definition emit (e : event) : M unit := fun w => (Return tt, record e w).

End Sys.

Declare Scope py_scope.
Delimit Scope py_scope with py.
Notation "x <- m ;; k" := (Sys.bind m (fun x => k))
  (at level 100, m at next level, right associativity) : py_scope.
Notation "m ;; k" := (Sys.bind m (fun _ => k))
  (at level 100, right associativity) : py_scope.
Open Scope py_scope.

(* ===================================================================== *)
(** ** The sensor reader *)
(* ===================================================================== *)

Module Reader.
Import Text Regex Py Float Sys.

Definition INFO : Z := 20.

(** ["/sys/bus/w1/devices/{}/w1_slave".format(sensor_id)] *)
Definition sensor_path (sensor_id : string) : string :=
  "/sys/bus/w1/devices/" +:+ sensor_id +:+ "/w1_slave".

(** [with open(filename) as file: content = file.read()]: either step may
    raise; the attempt is recorded and counted whatever it meets. *)
Definition open_and_read (filename : string) : M string :=
  fun w =>
    let w' :=
      mkWorld (environ w) (files w) (clock w) (localzone w) (server w)
        (S (opened w)) (asked w) (root_level w)
        (trace w ++ [(OpenFile filename, environ w)]) in
    match files w (opened w) filename with
    | CannotOpen e => (Raise e, w')
    | CannotRead e => (Raise e, w')
    | Holds content => (Return content, w')
    end.

(** [logger.info(...)], [logging.info(...)] and the like: the call is
    recorded; whether a line is printed is up to the configured level. *)
Definition log (level : Z) (template : string) (args : list log_arg) : M unit :=
  emit (LogCall level template args).

(** Lines 144-161: from the text of the report to the temperature. *)
Definition report_temperature (content : string) : outcome float :=
  let lines := split_lines content in
  match take 2 lines with
  | [first_line; second_line] =>
      let first_line_match := re_match FIRST_LINE_PATTERN first_line in
      let second_line_match := re_match SECOND_LINE_PATTERN second_line in
      match first_line_match, second_line_match with
      | Some m1, Some m2 =>
          if decide (group m1 "valid" = Some "YES") then
            match py_float (group m2 "temperature") with
            | Return x => truediv x (of_Z 1000)
            | Raise e => Raise e
            end
          else Raise (RuntimeError "CRC not valid")
      | _, _ => Raise (RuntimeError "Output not valid")
      end
  | _ => Raise (ValueError "not enough values to unpack (expected 2, got 1)")
  end.

(** The function under the decorator. *)
Definition read_ds18s20_temperature_undecorated (sensor_id : string) : M float :=
  let filename := sensor_path sensor_id in
  content <- open_and_read filename ;;
  temperature <- lift (report_temperature content) ;;
  log INFO "Read temperature for sensor %s: %.2f C"
    [AStr sensor_id; AFloat temperature] ;;
  ret temperature.

(** [trap_nan(f)]: whatever [f] raises becomes [float("nan")]. *)
Definition trap_nan {A : Type} (f : A -> M float) : A -> M float :=
  fun a w =>
    match f a w with
    | (Return v, w') => (Return v, w')
    | (Raise _, w') => (Return nan, w')
    end.

(** [@trap_nan def read_ds18s20_temperature(sensor_id)] *)
Definition read_ds18s20_temperature : string -> M float :=
  trap_nan read_ds18s20_temperature_undecorated.

End Reader.

(* ===================================================================== *)
(** ** The run *)
(* ===================================================================== *)

Module Driver.
Import Text Regex Py Float Sys Reader.

(** What [parse_arguments] hands over: the parsed command line. *)
Record Namespace : Type := mkNamespace {
  verbose : option Z;
  url : string;
  username : string;
  ca_cert : option string;
  sensor : list string;
}.

Definition WARN : Z := 30.
Definition DEBUG : Z := 10.

(** The [level] that [setup_logging] picks. *)
Definition select_level (verbose : option Z) : Z :=
  match verbose with
  | None => WARN
  | Some v =>
      if (v <=? 0)%Z then WARN
      else if (v =? 1)%Z then INFO
      else DEBUG
  end.

(** [logging.basicConfig(format=..., level=level)] on a fresh process. *)
Definition basicConfig (level : Z) : M unit :=
  fun w =>
    (Return tt,
     mkWorld (environ w) (files w) (clock w) (localzone w) (server w)
       (opened w) (asked w) level
       (trace w ++ [(BasicConfig level, environ w)])).

Definition setup_logging (verbose : option Z) : M unit :=
  basicConfig (select_level verbose).

(** [os.environ[key]] *)
Definition environ_get (key : string) : M string :=
  fun w =>
    match environ w !! key with
    | Some v => (Return v, record (EnvironGet key) w)
    | None => (Raise (KeyError key), record (EnvironGet key) w)
    end.

(** [del os.environ[key]] *)
Definition environ_del (key : string) : M unit :=
  fun w =>
    match environ w !! key with
    | Some _ =>
        (Return tt,
         mkWorld (delete key (environ w)) (files w) (clock w) (localzone w)
           (server w) (opened w) (asked w) (root_level w)
           (trace w ++ [(EnvironDel key, delete key (environ w))]))
    | None => (Raise (KeyError key), record (EnvironDel key) w)
    end.

(** [StanleyAiohttpInterface(url, ca_cert=..., username=..., password=...)] *)
Definition new_client (c : client) : M client :=
  emit (NewClient c) ;; ret c.

(** [get_localzone()] *)
Definition get_localzone : M string :=
  fun w => (Return (localzone w), record GetLocalzone w).

(** [datetime.now(timezone)] *)
Definition datetime_now (timezone : string) : M datetime :=
  fun w =>
    (Return (mkDatetime (clock w (asked w)) timezone),
     mkWorld (environ w) (files w) (clock w) (localzone w) (server w)
       (opened w) (S (asked w)) (root_level w)
       (trace w ++ [(DatetimeNow, environ w)])).

(** [await stanley.post_readings(readings)] *)
Definition post_readings (stanley : client) (readings : dict series) : M unit :=
  fun w => (server w readings, record (PostReadings stanley readings) w).

(** Lines 56-62, the comprehension building [all_time_series]: for each
    sensor in turn the reader is called, then the clock, and the
    one-point series is stored under the sensor. *)
Fixpoint collect_time_series (timezone : string) (sensors : list string)
    (all_time_series : dict series) : M (dict series) :=
  match sensors with
  | [] => ret all_time_series
  | sensor :: rest =>
      value <- read_ds18s20_temperature sensor ;;
      stamp <- datetime_now timezone ;;
      collect_time_series timezone rest
        (dict_set sensor [(stamp, value)] all_time_series)
  end.

(** Lines 64-65 *)
Fixpoint log_time_series (all_time_series : dict series) : M unit :=
  match all_time_series with
  | [] => ret tt
  | (sensor, time_series) :: rest =>
      log INFO "Sensor %s: %.2f" [AStr sensor; ASeries time_series] ;;
      log_time_series rest
  end.

(** ["/sensors/temperature/{}".format(sensor)] *)
Definition series_name (sensor : string) : string :=
  "/sensors/temperature/" +:+ sensor.

(** Lines 67-70, the comprehension building [readings]. *)
Definition build_readings (all_time_series : dict series) : dict series :=
  fold_left
    (fun readings item => dict_set (series_name item.1) item.2 readings)
    all_time_series [].

Definition STANLEY_PASSWORD : string := "STANLEY_PASSWORD".

(** [async_main], from the parsed command line on. *)
Definition async_main (arguments : Namespace) : M unit :=
  setup_logging (verbose arguments) ;;
  password <- environ_get STANLEY_PASSWORD ;;
  log DEBUG "Removing password from environment" [] ;;
  environ_del STANLEY_PASSWORD ;;
  log DEBUG "Using Stanley server %s" [AStr (url arguments)] ;;
  stanley <- new_client
    (mkClient (url arguments) (ca_cert arguments) (username arguments)
       password) ;;
  timezone <- get_localzone ;;
  all_time_series <- collect_time_series timezone (sensor arguments) [] ;;
  log_time_series all_time_series ;;
  let readings := build_readings all_time_series in
  log INFO "Sending values to Stanley server..." [] ;;
  post_readings stanley readings ;;
  log INFO "All done" [].

(** [main]: runs [async_main] to its end; an exception that comes out
    ends the process with status 1, a normal return with status 0. *)
Definition main (arguments : Namespace) (w : World) : Z * World :=
  match async_main arguments w with
  | (Return _, w') => (0%Z, w')
  | (Raise _, w') => (1%Z, w')
  end.

(** Events that build the archive client or go to the network. *)
Definition is_network (e : event) : bool :=
  match e with
  | NewClient _ | PostReadings _ _ => true
  | _ => false
  end.

(** The payloads handed to [post_readings], in order. *)
Definition posted (obs : list observation) : list (client * dict series) :=
  omap (fun o => match o.1 with
                 | PostReadings c readings => Some (c, readings)
                 | _ => None
                 end) obs.

(** The sensor files opened and the clock queries, in order. *)
Definition is_sensor_io (e : event) : bool :=
  match e with
  | OpenFile _ | DatetimeNow => true
  | _ => false
  end.

Definition sensor_io (obs : list observation) : list event :=
  filter (fun e => is_sensor_io e = true) obs.*1.

(** The first occurrence of each element, in order. *)
Fixpoint first_occurrences (l : list string) : list string :=
  match l with
  | [] => []
  | x :: rest => x :: filter (fun y => y <> x) (first_occurrences rest)
  end.

End Driver.

(* ===================================================================== *)
(** ** What a run did *)
(* ===================================================================== *)

Module Run.
Import Text Regex Py Float Sys Reader Driver.

(** What the reader returns on the [n]-th open of the run. *)
Definition reading (fs : nat -> string -> file_state) (n : nat)
    (sensor_id : string) : float :=
  match fs n (sensor_path sensor_id) with
  | Holds content =>
      match report_temperature content with
      | Return v => v
      | Raise _ => nan
      end
  | _ => nan
  end.

(** The observations a computation adds to the trace. *)
Definition observations_of {A : Type} (m : M A) (w : World) : list observation :=
  drop (length (trace w)) (trace (m w).2).

(** [w'] is [w] after [obs] happened without touching the environment:
    [opens] more files were opened and the clock was asked [asks] more
    times. *)
Record advance (w w' : World) (obs : list observation) (opens asks : nat) : Prop :=
  mkAdvance {
    adv_environ : environ w' = environ w;
    adv_files : files w' = files w;
    adv_clock : clock w' = clock w;
    adv_localzone : localzone w' = localzone w;
    adv_server : server w' = server w;
    adv_opened : opened w' = opened w + opens;
    adv_asked : asked w' = asked w + asks;
    adv_trace : trace w' = trace w ++ obs;
    adv_snapshots : Forall (fun o => o.2 = environ w) obs;
  }.

(** The items the first comprehension stores, one per element of the
    sensor list. *)
Fixpoint occurrences (fs : nat -> string -> file_state) (clk : nat -> Z)
    (timezone : string) (o a : nat) (sensors : list string) : dict series :=
  match sensors with
  | [] => []
  | s :: rest =>
      (s, [(mkDatetime (clk a) timezone, reading fs o s)])
      :: occurrences fs clk timezone (S o) (S a) rest
  end.

Definition dict_update {V : Type} (d : dict V) (items : dict V) : dict V :=
  fold_left (fun acc item => dict_set item.1 item.2 acc) items d.

Definition sensor_calls (sensors : list string) : list event :=
  s ← sensors; [OpenFile (sensor_path s); DatetimeNow].

(** [readings] renames each item of [all_time_series]. *)
Definition rename (item : string * series) : string * series :=
  (series_name item.1, item.2).

End Run.

(* ===================================================================== *)
(** ** A sample installation *)
(* ===================================================================== *)

Module Sample.
Import Text Regex Py Float Sys Reader Driver.

(** A two-line report as the w1 driver writes it, each line ended by a
    line feed. *)
Definition report (first_line second_line : string) : string :=
  first_line +:+ String newline (second_line +:+ String newline "").

Definition sample_files (n : nat) (filename : string) : file_state :=
  if String.eqb filename "/sys/bus/w1/devices/28-000001/w1_slave"
  then Holds (report "72 01 4b 46 7f ff 0e 10 57 : crc=57 YES"
                     "72 01 4b 46 7f ff 0e 10 57 t=21562")
  else if String.eqb filename "/sys/bus/w1/devices/28-000002/w1_slave"
  then Holds (report "50 05 4b 46 7f ff 0c 10 1c : crc=1c NO"
                     "50 05 4b 46 7f ff 0c 10 1c t=85000")
  else if String.eqb filename "/sys/bus/w1/devices/28-000003/w1_slave"
  then Holds (report "0c 00 4b 46 7f ff 0c 10 aa : crc=aa YES (checked)"
                     "0c 00 4b 46 7f ff 0c 10 aa t=12a34")
  else CannotOpen (OSError "No such file or directory").

Definition sample_world (env : gmap string string) : World :=
  mkWorld env sample_files (fun n => 1572868800 + Z.of_nat n)%Z "Europe/Copenhagen"
    (fun _ => Return tt) 0 0 30 [].

Definition sample_environ : gmap string string :=
  {[ STANLEY_PASSWORD := "secret" ]}.

Definition sample_arguments (sensors : list string) : Namespace :=
  mkNamespace None "https://stanley.example.org" "pi" None sensors.

End Sample.

(* ===================================================================== *)
(** ** The patterns, piece by piece *)
(* ===================================================================== *)

Module Shape.
Import Text Regex.

(** Whether a text begins with a decimal digit. *)
Definition starts_with_digit (s : string) : bool :=
  match s with
  | String c _ => is_digit c
  | EmptyString => false
  end.

(** The tail of [SECOND_LINE_PATTERN] after [.*]. *)
Definition SECOND_LINE_TAIL : regex :=
  Seq (Lit "t=")
    (Group "temperature"
       (Seq (Opt (Chr (Literal "-"%char))) (Plus DigitChar))).

(** The tail of [FIRST_LINE_PATTERN] after [.*]. *)
Definition FIRST_LINE_TAIL : regex :=
  Seq (Lit ": crc=")
    (Seq (Group "1" (Seq (Chr WordChar) (Chr WordChar)))
       (Seq (Lit " ")
          (Group "valid" (Alt (Lit "YES") (Lit "NO"))))).

(** ["\n".join(lines)] *)
Definition join_lines (lines : list string) : string :=
  String.concat (String newline "") lines.

(** Number of line feeds in a text. *)
Definition count_newlines (s : string) : nat :=
  length (filter (fun c => c = newline) (list_ascii_of_string s)).

End Shape.

(* ===================================================================== *)
(** ** What a run is expected to leave in the trace *)
(* ===================================================================== *)

Module Expected.
Import Text Regex Py Float Sys Reader Driver Run.

(** What one call of the reader leaves in the trace: the open and, when
    the report parses, the log call. *)
Definition reader_observations (fs : nat -> string -> file_state)
    (env : gmap string string) (n : nat) (sensor_id : string)
    : list observation :=
  (OpenFile (sensor_path sensor_id), env)
  :: match fs n (sensor_path sensor_id) with
     | Holds content =>
         match report_temperature content with
         | Return v =>
             [(LogCall INFO "Read temperature for sensor %s: %.2f C"
                 [AStr sensor_id; AFloat v], env)]
         | Raise _ => []
         end
     | _ => []
     end.

(** What the first comprehension leaves in the trace. *)
Fixpoint collect_observations (fs : nat -> string -> file_state)
    (env : gmap string string) (n : nat) (sensors : list string)
    : list observation :=
  match sensors with
  | [] => []
  | s :: rest =>
      reader_observations fs env n s
      ++ (DatetimeNow, env) :: collect_observations fs env (S n) rest
  end.

(** What the loop of lines 64-65 leaves in the trace. *)
Definition series_logs (env : gmap string string) (d : dict series)
    : list observation :=
  (fun item =>
     (LogCall INFO "Sensor %s: %.2f" [AStr item.1; ASeries item.2], env))
    <$> d.

(** The whole trace of a run that finds the password. *)
Definition run_observations (arguments : Namespace) (w : World)
    (password : string) : list observation :=
  let env := environ w in
  let env' := delete STANLEY_PASSWORD env in
  let stanley :=
    mkClient (url arguments) (ca_cert arguments) (username arguments)
      password in
  let all_time_series :=
    dict_update []
      (occurrences (files w) (clock w) (localzone w) (opened w) (asked w)
         (sensor arguments)) in
  let readings := build_readings all_time_series in
  [(BasicConfig (select_level (verbose arguments)), env);
   (EnvironGet STANLEY_PASSWORD, env);
   (LogCall DEBUG "Removing password from environment" [], env);
   (EnvironDel STANLEY_PASSWORD, env');
   (LogCall DEBUG "Using Stanley server %s" [AStr (url arguments)], env');
   (NewClient stanley, env');
   (GetLocalzone, env')]
  ++ collect_observations (files w) env' (opened w) (sensor arguments)
  ++ series_logs env' all_time_series
  ++ [(LogCall INFO "Sending values to Stanley server..." [], env');
      (PostReadings stanley readings, env')]
  ++ match server w readings with
     | Return _ => [(LogCall INFO "All done" [], env')]
     | Raise _ => []
     end.

End Expected.


Import Text Regex Py Float Sys Reader Driver Run Sample.
Import Shape Expected.

(* ===================================================================== *)
(** ** Lists *)
(* ===================================================================== *)

Section ListFacts.
Context {A B : Type}.

Lemma filter_fmap_commute (P : B -> Prop) `{!∀ y, Decision (P y)}
    (f : A -> B) (l : list A) :
  filter P (f <$> l) = f <$> filter (fun x => P (f x)) l.
Proof.
  induction l as [|a l IH]; [reflexivity|].
  rewrite fmap_cons, !filter_cons, IH.
  destruct (decide (P (f a))); reflexivity.
Qed.

Lemma filter_none (P : A -> Prop) `{!∀ y, Decision (P y)} (l : list A) :
  (forall x, x ∈ l -> ~ P x) -> filter P l = [].
Proof.
  induction l as [|a l IH]; intros Hno; [reflexivity|].
  rewrite filter_cons_False by (apply Hno; left).
  apply IH. intros x Hx. apply Hno. now right.
Qed.

Lemma head_filter_head (P : A -> Prop) `{!∀ y, Decision (P y)}
    (l : list A) (x : A) :
  head l = Some x -> P x -> head (filter P l) = Some x.
Proof.
  destruct l as [|a l]; simpl; intros [= ->] HP.
  now rewrite filter_cons_True.
Qed.

End ListFacts.


(* ===================================================================== *)
(** ** The matcher *)
(* ===================================================================== *)

Example first_line_yes :
  (fun m => (m_end m, group m "valid", group m "1"))
    <$> re_match FIRST_LINE_PATTERN "72 01 4b 46 7f ff 0e 10 57 : crc=57 YES"
  = Some (39, Some "YES", Some "57").
Proof. vm_compute. reflexivity. Qed.

Example first_line_last_flag_wins :
  (fun m => group m "valid")
    <$> re_match FIRST_LINE_PATTERN "aa : crc=5_ YESNO : crc=zz NOPE"
  = Some (Some "NO").
Proof. vm_compute. reflexivity. Qed.

Example second_line_last_value_wins :
  (fun m => group m "temperature")
    <$> re_match SECOND_LINE_PATTERN "t=12 t=-34a t="
  = Some (Some "-34").
Proof. vm_compute. reflexivity. Qed.

Example second_line_no_digits :
  re_match SECOND_LINE_PATTERN "72 01 4b 46 7f ff 0e 10 57 t=-" = None.
Proof. vm_compute. reflexivity. Qed.

Example split_lines_report :
  split_lines (report "a : crc=57 YES" "b t=1")
  = ["a : crc=57 YES"; "b t=1"; ""].
Proof. vm_compute. reflexivity. Qed.

Lemma star_lengths_take cs (s : chars) k :
  star_lengths cs (take k s) = filter (fun n => n <= k) (star_lengths cs s).
Proof.
  revert k. induction s as [|c s IH]; intros k.
  - rewrite take_nil. simpl. rewrite filter_cons_True by lia. reflexivity.
  - destruct k as [|k].
    + simpl. destruct (in_charset cs c).
      * rewrite filter_app, filter_fmap_commute.
        rewrite (filter_none (fun x => S x <= 0)) by (intros; lia).
        reflexivity.
      * reflexivity.
    + simpl. destruct (in_charset cs c).
      * rewrite filter_app, filter_fmap_commute, IH.
        rewrite (filter_cons_True _ 0) by lia.
        do 2 f_equal. apply list_filter_iff. intros; lia.
      * rewrite filter_cons_True by lia. reflexivity.
Qed.

Lemma matches_take r : forall (s : chars) k,
  matches r (take k s) = filter (fun x => x.1 <= k) (matches r s).
Proof.
  induction r as [|cs|cs|r IH|r1 IH1 r2 IH2|r1 IH1 r2 IH2|name r IH];
    intros s k; simpl.
  - rewrite filter_cons_True by (simpl; lia). reflexivity.
  - destruct s as [|c s]; [now rewrite take_nil|].
    destruct k as [|k]; simpl.
    + destruct (in_charset cs c); [|reflexivity].
      rewrite filter_cons_False by (simpl; lia). reflexivity.
    + destruct (in_charset cs c); [|reflexivity].
      rewrite filter_cons_True by (simpl; lia). reflexivity.
  - rewrite star_lengths_take, filter_fmap_commute. reflexivity.
  - rewrite filter_app, IH, filter_cons_True by (simpl; lia). reflexivity.
  - rewrite IH1. generalize (matches r1 s) as l.
    induction l as [|x l IHl]; [reflexivity|].
    rewrite bind_cons, filter_app, <- IHl, filter_cons.
    destruct (decide (x.1 <= k)) as [Hx|Hx].
    + rewrite bind_cons. f_equal.
      rewrite skipn_firstn_comm, IH2, !filter_fmap_commute.
      f_equal. apply list_filter_iff. intros y; unfold captures in *; simpl; lia.
    + rewrite (filter_none _ (_ <$> _)); [reflexivity|].
      intros y [z [-> _]]%list_elem_of_fmap_1; unfold captures in *; simpl; lia.
  - rewrite filter_app, IH1, IH2. reflexivity.
  - rewrite IH, filter_fmap_commute. simpl.
    apply Forall_fmap_ext, Forall_forall.
    intros x [Hx _]%list_elem_of_filter.
    rewrite take_take, Nat.min_l by exact Hx. reflexivity.
Qed.

Lemma re_match_prefix pattern line m :
  re_match pattern line = Some m ->
  re_match pattern (prefix (m_end m) line) = Some m.
Proof.
  unfold re_match, prefix. rewrite list_ascii_of_string_of_list_ascii.
  destruct (head (matches pattern (list_ascii_of_string line))) as [x|] eqn:Hh;
    simpl; intros [= <-]. simpl.
  rewrite matches_take, (head_filter_head _ _ x Hh) by (simpl; lia).
  reflexivity.
Qed.

Lemma star_lengths_elem cs (s : chars) n :
  n ∈ star_lengths cs s ->
  length (take n s) = n /\ Forall (fun c => in_charset cs c = true) (take n s).
Proof.
  revert n. induction s as [|c s IH]; intros n; simpl.
  - intros ->%list_elem_of_singleton. split; [reflexivity|constructor].
  - destruct (in_charset cs c) eqn:Hc.
    + intros [[k [-> Hk]]%list_elem_of_fmap_1 | ->%list_elem_of_singleton]%elem_of_app.
      * destruct (IH k Hk) as [Hl HF]. simpl. split; [now f_equal|].
        constructor; assumption.
      * split; [reflexivity|constructor].
    + intros ->%list_elem_of_singleton. split; [reflexivity|constructor].
Qed.

Lemma matches_Lit t (s : chars) x :
  x ∈ matches (Lit t) s -> x = (String.length t, []).
Proof.
  revert s x. induction t as [|c t IH]; intros s x; simpl.
  - now intros ->%list_elem_of_singleton.
  - intros [y [[z [-> Hz]]%list_elem_of_fmap_1 Hy]]%list_elem_of_bind.
    destruct s as [|c' s]; [now apply elem_of_nil in Hy|].
    destruct (Ascii.eqb c c'); [|now apply elem_of_nil in Hy].
    apply list_elem_of_singleton in Hy as ->.
    apply IH in Hz as ->. reflexivity.
Qed.

Lemma digits_value_Some acc (ds : chars) :
  (0 <= acc)%Z -> Forall (fun c => is_digit c = true) ds ->
  exists v, digits_value acc ds = Some v /\ (0 <= v)%Z.
Proof.
  intros Hacc HF. revert acc Hacc.
  induction HF as [|c ds Hc _ IH]; intros acc Hacc; simpl.
  - eauto.
  - rewrite Hc. apply IH. lia.
Qed.

(** The texts [-?\d+] matches. *)
Lemma matches_signed_digits (s : chars) x :
  x ∈ matches (Seq (Opt (Chr (Literal "-"%char))) (Plus DigitChar)) s ->
  x.2 = [] /\
  exists (neg : bool) (n : Z),
    (0 <= n)%Z
    /\ int_value (string_of_list_ascii (take x.1 s))
       = Some (if neg then - n else n)%Z
    /\ py_float (Some (string_of_list_ascii (take x.1 s)))
       = Return (binary_normalize prec emax (if neg then - n else n) 0 neg).
Proof.
  assert (Hplus : forall (s' : chars) y,
    y ∈ matches (Plus DigitChar) s' ->
    y.2 = [] /\ exists c ds, take y.1 s' = c :: ds
      /\ Forall (fun c => is_digit c = true) (c :: ds)).
  { intros s' y. unfold Plus. simpl.
    intros [a [[b [-> Hb]]%list_elem_of_fmap_1 Ha]]%list_elem_of_bind.
    destruct s' as [|c s']; [now apply elem_of_nil in Ha|].
    destruct (is_digit c) eqn:Hc; [|now apply elem_of_nil in Ha].
    apply list_elem_of_singleton in Ha as ->.
    apply list_elem_of_fmap_1 in Hb as [k [-> Hk]]. simpl in *.
    apply star_lengths_elem in Hk as [_ HF].
    split; [reflexivity|]. exists c, (take k s'). split; [reflexivity|].
    constructor; assumption. }
  assert (Hval : forall c ds, Forall (fun c => is_digit c = true) (c :: ds) ->
    c <> "-"%char /\ exists n, (0 <= n)%Z /\ decimal (c :: ds) = Some n).
  { intros c ds HF. split.
    - intros ->. apply Forall_cons_1 in HF as [Hc _]. discriminate Hc.
    - destruct (digits_value_Some 0 (c :: ds) ltac:(lia) HF) as [v [Hv Hv0]].
      exists v. split; [exact Hv0|exact Hv]. }
  cbn [matches].
  intros [a [[b [-> Hb]]%list_elem_of_fmap_1 Ha]]%list_elem_of_bind.
  apply elem_of_app in Ha as [Ha | ->%list_elem_of_singleton].
  - destruct s as [|c s]; [now apply elem_of_nil in Ha|].
    cbn [matches in_charset] in Ha.
    destruct (Ascii.eqb "-" c) eqn:Hc; [|now apply elem_of_nil in Ha].
    apply Ascii.eqb_eq in Hc as <-.
    apply list_elem_of_singleton in Ha as ->.
    apply Hplus in Hb as [Hb2 [d [ds [Htake HF]]]].
    cbn [fst snd take drop Nat.add app] in Htake, Hb2 |- *.
    rewrite ?drop_0 in Htake.
    rewrite Hb2. split; [reflexivity|].
    destruct (Hval d ds HF) as [_ [n [Hn Hdec]]].
    exists true, n. split; [exact Hn|].
    unfold int_value, py_float.
    rewrite list_ascii_of_string_of_list_ascii, Htake, Hdec. split; reflexivity.
  - apply Hplus in Hb as [Hb2 [d [ds [Htake HF]]]].
    cbn [fst snd take drop Nat.add app] in Htake, Hb2 |- *.
    rewrite ?drop_0 in Htake.
    rewrite Hb2. split; [reflexivity|].
    destruct (Hval d ds HF) as [Hd [n [Hn Hdec]]].
    exists false, n. split; [exact Hn|].
    unfold int_value, py_float.
    rewrite list_ascii_of_string_of_list_ascii, Htake.
    destruct d as [[] [] [] [] [] [] [] []]; try (rewrite Hdec; split; reflexivity).
    contradiction Hd; reflexivity.
Qed.

(** Whatever the second pattern matches, its [temperature] group holds an
    integer text, on which [float] does not raise. *)
Lemma temperature_group_is_integer_text line m :
  re_match SECOND_LINE_PATTERN line = Some m ->
  exists (text : string) (neg : bool) (n : Z),
    group m "temperature" = Some text
    /\ (0 <= n)%Z
    /\ int_value text = Some (if neg then - n else n)%Z
    /\ py_float (Some text)
       = Return (binary_normalize prec emax (if neg then - n else n) 0 neg).
Proof.
  unfold re_match.
  destruct (head _) as [x|] eqn:Hh; [|discriminate]. simpl. intros [= <-].
  apply head_Some_elem_of in Hh. unfold SECOND_LINE_PATTERN in Hh.
  simpl matches in Hh.
  apply list_elem_of_bind in Hh as [a [[b [-> Hb]]%list_elem_of_fmap_1 _]].
  apply list_elem_of_bind in Hb as [c [[d [-> Hd]]%list_elem_of_fmap_1 Hc]].
  apply (matches_Lit "t=") in Hc as ->. simpl in Hd.
  apply list_elem_of_fmap_1 in Hd as [e [-> He]].
  apply matches_signed_digits in He as [He2 [neg [n [Hn [Hint Hfl]]]]].
  exists (string_of_list_ascii (take e.1 (drop 2 (drop a.1 (list_ascii_of_string line))))), neg, n.
  split; [|auto].
  unfold group. cbn [m_groups fst snd]. reflexivity.
Qed.

(* ===================================================================== *)
(** ** Floats *)
(* ===================================================================== *)

Section FloatFacts.

Lemma iter_pos_invariant {A : Type} (P : A -> Prop) (f : A -> A) :
  (forall x, P x -> P (f x)) -> forall p x, P x -> P (SpecFloat.iter_pos f p x).
Proof.
  intros Hf. induction p as [p IH|p IH|]; intros x Hx; simpl; auto.
Qed.

Lemma shr_1_nonneg mrs : (0 <= shr_m mrs)%Z -> (0 <= shr_m (shr_1 mrs))%Z.
Proof.
  destruct mrs as [m r s]. simpl.
  destruct m as [|[p|p|]|[p|p|]]; simpl; lia.
Qed.

Lemma shr_fexp_nonneg m e l :
  (0 <= m)%Z -> (0 <= shr_m (shr_fexp prec emax m e l).1)%Z.
Proof.
  intros Hm. unfold shr_fexp, shr.
  assert (H0 : (0 <= shr_m (shr_record_of_loc m l))%Z)
    by (destruct l as [|[]]; exact Hm).
  destruct (fexp prec emax (Zdigits2 m + e) - e)%Z; simpl; try exact H0.
  apply (iter_pos_invariant (fun x => (0 <= shr_m x)%Z)); [apply shr_1_nonneg|exact H0].
Qed.

Lemma round_nearest_even_nonneg m l :
  (0 <= m)%Z -> (0 <= round_nearest_even m l)%Z.
Proof.
  intros Hm. destruct l as [|[]]; simpl; try lia.
  destruct (Z.even m); lia.
Qed.

Lemma binary_round_aux_not_nan sx mx ex lx :
  (0 <= mx)%Z -> binary_round_aux prec emax sx mx ex lx <> S754_nan.
Proof.
  intros Hm. unfold binary_round_aux.
  pose proof (shr_fexp_nonneg mx ex lx Hm) as H1.
  destruct (shr_fexp prec emax mx ex lx) as [mrs' e'].
  pose proof (shr_fexp_nonneg _ e' loc_Exact
                (round_nearest_even_nonneg _ (loc_of_shr_record mrs') H1)) as H2.
  destruct (shr_fexp prec emax _ e' loc_Exact) as [mrs'' e'']. simpl in H2.
  destruct (shr_m mrs''); [discriminate| |lia].
  destruct (e'' <=? emax - prec)%Z; discriminate.
Qed.

Lemma binary_normalize_not_nan m e szero :
  binary_normalize prec emax m e szero <> S754_nan.
Proof.
  destruct m; simpl; [discriminate| |]; unfold binary_round;
    destruct (shl_align _ _ _); apply binary_round_aux_not_nan; lia.
Qed.

Lemma SFdiv_by_finite_not_nan x sy my ey :
  x <> S754_nan -> SFdiv prec emax x (S754_finite sy my ey) <> S754_nan.
Proof.
  intros Hx. destruct x as [sx|sx| |sx mx ex]; simpl; try discriminate; [contradiction|].
  unfold SFdiv_core_binary.
  set (m' := match _ with Z0 => _ | Zpos _ => _ | Zneg _ => _ end).
  assert (Hm' : (0 <= m')%Z).
  { subst m'. destruct (_ - _ - _)%Z; try lia. apply Z.shiftl_nonneg. lia. }
  pose proof (Z.div_pos m' (Z.pos my) Hm' ltac:(lia)) as Hq.
  unfold Z.div in Hq. destruct (Z.div_eucl m' (Z.pos my)) as [q r].
  apply binary_round_aux_not_nan. exact Hq.
Qed.

Lemma float_eq_refl x : x <> S754_nan -> float_eq x x = true.
Proof.
  intros Hx. unfold float_eq, SFeqb.
  destruct x as [[]|[]| |[] m e]; simpl; try reflexivity; [contradiction| |];
    rewrite Z.compare_refl, Pos.compare_cont_refl; reflexivity.
Qed.

Lemma of_Z_1000 : of_Z 1000 = S754_finite false 8796093022208000 (-43).
Proof. vm_compute. reflexivity. Qed.

Lemma truediv_1000 x :
  truediv x (of_Z 1000) = Return (SFdiv prec emax x (of_Z 1000)).
Proof. rewrite of_Z_1000. reflexivity. Qed.

(** What [float(text) / 1000] is against [N / 1000.0], for the float of a
    signed run of digits. *)
Lemma signed_quotient (neg : bool) (n : Z) :
  (0 <= n)%Z ->
  let N := (if neg then - n else n)%Z in
  let r := SFdiv prec emax (binary_normalize prec emax N 0 neg) (of_Z 1000) in
  float_eq r (millidegrees_to_celsius N) = true
  /\ (N <> 0%Z -> r = millidegrees_to_celsius N).
Proof.
  intros Hn N r. unfold millidegrees_to_celsius, of_Z at 1.
  destruct (Z.eq_dec N 0%Z) as [HN|HN].
  - split; [|contradiction]. subst r. rewrite HN, of_Z_1000. 
    destruct neg; reflexivity.
  - assert (Hr : r = SFdiv prec emax (binary_normalize prec emax N 0 false) (of_Z 1000)).
    { subst r. destruct N; [contradiction|reflexivity|reflexivity]. }
    split; [|intros _; exact Hr].
    rewrite <- Hr. apply float_eq_refl. subst r. rewrite of_Z_1000.
    apply SFdiv_by_finite_not_nan, binary_normalize_not_nan.
Qed.

End FloatFacts.

(** [literal_21_562] is within half a unit in the last place of 21562/1000,
    and [literal_0_012] of 12/1000. *)
Lemma literals_are_nearest :
  (2 * Z.abs (1000 * 6069163447835165 - 21562 * 2 ^ 48) <= 1000)%Z
  /\ (2 * Z.abs (1000 * 6917529027641082 - 12 * 2 ^ 59) <= 1000)%Z.
Proof. split; vm_compute; discriminate. Qed.

Example quotient_21562 : millidegrees_to_celsius 21562 = literal_21_562.
Proof. vm_compute. reflexivity. Qed.

(* ===================================================================== *)
(** ** The sensor reader *)
(* ===================================================================== *)

Lemma read_holds w sensor_id content :
  files w (opened w) (sensor_path sensor_id) = Holds content ->
  (read_ds18s20_temperature sensor_id w).1
  = Return (match report_temperature content with
            | Return v => v
            | Raise _ => nan
            end).
Proof.
  intros Hf.
  unfold read_ds18s20_temperature, trap_nan, read_ds18s20_temperature_undecorated,
    bind, open_and_read, lift, log, emit, ret.
  rewrite Hf. destruct (report_temperature content); reflexivity.
Qed.

Lemma read_fails w sensor_id :
  (forall content,
     files w (opened w) (sensor_path sensor_id) <> Holds content) ->
  (read_ds18s20_temperature sensor_id w).1 = Return nan.
Proof.
  intros Hf.
  unfold read_ds18s20_temperature, trap_nan, read_ds18s20_temperature_undecorated,
    bind, open_and_read.
  destruct (files w (opened w) (sensor_path sensor_id)) as [e|e|content];
    [reflexivity|reflexivity|]. now contradiction (Hf content).
Qed.

Lemma report_temperature_two_lines content l1 l2 rest :
  split_lines content = l1 :: l2 :: rest ->
  report_temperature content
  = match re_match FIRST_LINE_PATTERN l1, re_match SECOND_LINE_PATTERN l2 with
    | Some m1, Some m2 =>
        if decide (group m1 "valid" = Some "YES") then
          match py_float (group m2 "temperature") with
          | Return x => truediv x (of_Z 1000)
          | Raise e => Raise e
          end
        else Raise (RuntimeError "CRC not valid")
    | _, _ => Raise (RuntimeError "Output not valid")
    end.
Proof. intros Hs. unfold report_temperature. rewrite Hs. reflexivity. Qed.

Lemma prefix_app p t : prefix (String.length p) (p +:+ t) = p.
Proof.
  unfold prefix. induction p as [|c p IH]; simpl.
  - reflexivity.
  - now rewrite IH.
Qed.

(** C1.  When the first line of a sensor's report matches the first-line
    pattern with validity flag "YES" and the second line matches the
    second-line pattern, the temperature group holds the text of a signed
    integer [N] and the reader returns [N / 1000.0]: a float equal to it
    under [==], and the very same float unless [N] is zero (a report
    reading [t=-0] gives the negative zero). *)
Theorem reader_returns_millidegrees_over_1000
    w sensor_id content l1 l2 rest m1 m2 :
  files w (opened w) (sensor_path sensor_id) = Holds content ->
  split_lines content = l1 :: l2 :: rest ->
  re_match FIRST_LINE_PATTERN l1 = Some m1 ->
  group m1 "valid" = Some "YES" ->
  re_match SECOND_LINE_PATTERN l2 = Some m2 ->
  exists (text : string) (N : Z) (r : float),
    group m2 "temperature" = Some text
    /\ int_value text = Some N
    /\ (read_ds18s20_temperature sensor_id w).1 = Return r
    /\ float_eq r (millidegrees_to_celsius N) = true
    /\ (N <> 0%Z -> r = millidegrees_to_celsius N).
Proof.
  intros Hf Hs H1 Hv H2.
  destruct (temperature_group_is_integer_text l2 m2 H2)
    as (text & neg & n & Hg & Hn & Hint & Hfl).
  destruct (signed_quotient neg n Hn) as [Heq Hexact].
  exists text, (if neg then - n else n)%Z. eexists.
  split; [exact Hg|]. split; [exact Hint|].
  split; [|split; [exact Heq|exact Hexact]].
  rewrite (read_holds _ _ _ Hf), (report_temperature_two_lines _ _ _ _ Hs), H1, H2.
  rewrite decide_True by exact Hv.
  rewrite Hg, Hfl, truediv_1000. reflexivity.
Qed.

Lemma reader_returns_millidegrees_over_1000_witness :
  (read_ds18s20_temperature "28-000001" (sample_world ∅)).1
  = Return literal_21_562.
Proof.
  edestruct (reader_returns_millidegrees_over_1000 (sample_world ∅) "28-000001")
    as (text & N & r & Hg & HN & Hr & _ & Hexact).
  - vm_compute. reflexivity.
  - vm_compute. reflexivity.
  - vm_compute. reflexivity.
  - vm_compute. reflexivity.
  - vm_compute. reflexivity.
  - vm_compute in Hg. injection Hg as <-.
    vm_compute in HN. injection HN as <-.
    rewrite Hr, Hexact by discriminate. vm_compute. reflexivity.
Defined.

(** C2.  For every sensor identifier and every state of the world the
    reader returns a value and never raises; it returns the
    not-a-number value whenever the undecorated function raises, the file
    cannot be opened or cannot be read, either line pattern fails to
    match, or the report has a single line. *)
Theorem reader_never_raises w sensor_id :
  (exists v, (read_ds18s20_temperature sensor_id w).1 = Return v)
  /\ (forall e,
        (read_ds18s20_temperature_undecorated sensor_id w).1 = Raise e ->
        (read_ds18s20_temperature sensor_id w).1 = Return nan)
  /\ (forall e,
        files w (opened w) (sensor_path sensor_id) = CannotOpen e ->
        (read_ds18s20_temperature sensor_id w).1 = Return nan)
  /\ (forall e,
        files w (opened w) (sensor_path sensor_id) = CannotRead e ->
        (read_ds18s20_temperature sensor_id w).1 = Return nan)
  /\ (forall content l1 l2 rest,
        files w (opened w) (sensor_path sensor_id) = Holds content ->
        split_lines content = l1 :: l2 :: rest ->
        re_match FIRST_LINE_PATTERN l1 = None
        \/ re_match SECOND_LINE_PATTERN l2 = None ->
        (read_ds18s20_temperature sensor_id w).1 = Return nan)
  /\ (forall content line,
        files w (opened w) (sensor_path sensor_id) = Holds content ->
        split_lines content = [line] ->
        (read_ds18s20_temperature sensor_id w).1 = Return nan).
Proof.
  repeat split.
  - unfold read_ds18s20_temperature, trap_nan.
    destruct (read_ds18s20_temperature_undecorated sensor_id w) as [[v|e] w'];
      eauto.
  - intros e. unfold read_ds18s20_temperature, trap_nan.
    destruct (read_ds18s20_temperature_undecorated sensor_id w) as [[v|e'] w'];
      [discriminate|reflexivity].
  - intros e He. apply read_fails. intros content. rewrite He. discriminate.
  - intros e He. apply read_fails. intros content. rewrite He. discriminate.
  - intros content l1 l2 rest Hf Hs Hno.
    rewrite (read_holds _ _ _ Hf), (report_temperature_two_lines _ _ _ _ Hs).
    destruct Hno as [-> | ->]; [reflexivity|].
    destruct (re_match FIRST_LINE_PATTERN l1); reflexivity.
  - intros content line Hf Hs. rewrite (read_holds _ _ _ Hf).
    unfold report_temperature. rewrite Hs. reflexivity.
Qed.

(** C3.  When both line patterns match and the validity flag is "NO", the
    parse ends in the [RuntimeError] "CRC not valid" and the reader
    returns the not-a-number value. *)
Theorem reader_invalid_crc_is_nan w sensor_id content l1 l2 rest m1 m2 :
  files w (opened w) (sensor_path sensor_id) = Holds content ->
  split_lines content = l1 :: l2 :: rest ->
  re_match FIRST_LINE_PATTERN l1 = Some m1 ->
  re_match SECOND_LINE_PATTERN l2 = Some m2 ->
  group m1 "valid" = Some "NO" ->
  report_temperature content = Raise (RuntimeError "CRC not valid")
  /\ (read_ds18s20_temperature sensor_id w).1 = Return nan.
Proof.
  intros Hf Hs H1 H2 Hv.
  assert (Hr : report_temperature content = Raise (RuntimeError "CRC not valid")).
  { rewrite (report_temperature_two_lines _ _ _ _ Hs), H1, H2.
    rewrite decide_False; [reflexivity|]. rewrite Hv. discriminate. }
  split; [exact Hr|]. rewrite (read_holds _ _ _ Hf), Hr. reflexivity.
Qed.

Lemma reader_invalid_crc_is_nan_witness :
  (read_ds18s20_temperature "28-000002" (sample_world ∅)).1 = Return nan.
Proof.
  eapply reader_invalid_crc_is_nan; vm_compute; reflexivity.
Defined.

(** C9.  The patterns constrain a prefix of each line.  When the first
    line is [p1] followed by any [t1] and the match ends where [p1] ends,
    and likewise [p2], [t2] for the second line, the same matches are
    found on [p1] and [p2] alone, a report made of [p1] and [p2] parses to
    the same outcome, and with flag "YES" the reader returns the value of
    the temperature group over 1000. *)
Theorem trailing_content_is_ignored
    w sensor_id content p1 t1 p2 t2 rest m1 m2 :
  files w (opened w) (sensor_path sensor_id) = Holds content ->
  split_lines content = (p1 +:+ t1) :: (p2 +:+ t2) :: rest ->
  re_match FIRST_LINE_PATTERN (p1 +:+ t1) = Some m1 ->
  m_end m1 = String.length p1 ->
  re_match SECOND_LINE_PATTERN (p2 +:+ t2) = Some m2 ->
  m_end m2 = String.length p2 ->
  re_match FIRST_LINE_PATTERN p1 = Some m1
  /\ re_match SECOND_LINE_PATTERN p2 = Some m2
  /\ (forall content' rest',
        split_lines content' = p1 :: p2 :: rest' ->
        report_temperature content' = report_temperature content)
  /\ (group m1 "valid" = Some "YES" ->
      exists (text : string) (x : float),
        group m2 "temperature" = Some text
        /\ py_float (Some text) = Return x
        /\ (read_ds18s20_temperature sensor_id w).1
           = Return (SFdiv prec emax x (of_Z 1000))).
Proof.
  intros Hf Hs H1 He1 H2 He2.
  destruct (temperature_group_is_integer_text _ m2 H2)
    as (text & neg & n & Hg & _ & _ & Hfl).
  pose proof (re_match_prefix _ _ _ H1) as H1'.
  pose proof (re_match_prefix _ _ _ H2) as H2'.
  rewrite He1, prefix_app in H1'. rewrite He2, prefix_app in H2'.
  split; [exact H1'|]. split; [exact H2'|]. split.
  - intros content' rest' Hs'.
    rewrite (report_temperature_two_lines _ _ _ _ Hs'),
      (report_temperature_two_lines _ _ _ _ Hs), H1, H2, H1', H2'.
    reflexivity.
  - intros Hv. exists text. eexists. split; [exact Hg|]. split; [exact Hfl|].
    rewrite (read_holds _ _ _ Hf), (report_temperature_two_lines _ _ _ _ Hs), H1, H2.
    rewrite decide_True by exact Hv. rewrite Hg, Hfl, truediv_1000. reflexivity.
Qed.

Lemma trailing_content_is_ignored_witness :
  (read_ds18s20_temperature "28-000003" (sample_world ∅)).1
  = Return literal_0_012.
Proof.
  edestruct (trailing_content_is_ignored (sample_world ∅) "28-000003"
               (report "0c 00 4b 46 7f ff 0c 10 aa : crc=aa YES (checked)"
                       "0c 00 4b 46 7f ff 0c 10 aa t=12a34")
               "0c 00 4b 46 7f ff 0c 10 aa : crc=aa YES" " (checked)"
               "0c 00 4b 46 7f ff 0c 10 aa t=12" "a34")
    as (_ & _ & _ & Hyes).
  - vm_compute. reflexivity.
  - vm_compute. reflexivity.
  - vm_compute. reflexivity.
  - vm_compute. reflexivity.
  - vm_compute. reflexivity.
  - vm_compute. reflexivity.
  - destruct Hyes as (text & x & Hg & Hx & Hr); [vm_compute; reflexivity|].
    vm_compute in Hg. injection Hg as <-.
    vm_compute in Hx. injection Hx as <-.
    rewrite Hr. vm_compute. reflexivity.
Defined.

(* ===================================================================== *)
(** ** Worlds and traces *)
(* ===================================================================== *)

Lemma advance_refl w : advance w w [] 0 0.
Proof. split; rewrite ?Nat.add_0_r, ?app_nil_r; auto. Qed.

Lemma advance_trans w w1 w2 obs1 obs2 a1 b1 a2 b2 :
  advance w w1 obs1 a1 b1 -> advance w1 w2 obs2 a2 b2 ->
  advance w w2 (obs1 ++ obs2) (a1 + a2) (b1 + b2).
Proof.
  intros [] []. split; try congruence; try lia.
  - rewrite adv_trace1, adv_trace0, app_assoc. reflexivity.
  - apply Forall_app. split; [assumption|].
    rewrite <- adv_environ0. assumption.
Qed.

Lemma advance_record e w : advance w (record e w) [(e, environ w)] 0 0.
Proof. split; simpl; rewrite ?Nat.add_0_r; auto. Qed.

Lemma reader_advance sensor_id w :
  exists w' obs,
    read_ds18s20_temperature sensor_id w
    = (Return (reading (files w) (opened w) sensor_id), w')
    /\ advance w w' obs 1 0
    /\ sensor_io obs = [OpenFile (sensor_path sensor_id)]
    /\ Forall (fun o => is_network o.1 = false) obs.
Proof.
  unfold read_ds18s20_temperature, trap_nan, read_ds18s20_temperature_undecorated,
    bind, open_and_read, lift, log, emit, ret, reading.
  destruct (files w (opened w) (sensor_path sensor_id)) as [e|e|content].
  1,2: eexists _, [_]; split; [reflexivity|]; split;
       [split; simpl; rewrite ?Nat.add_0_r; auto; lia|];
       split; [reflexivity|]; repeat constructor.
  destruct (report_temperature content) as [v|e].
  - eexists _, [_; _]. split; [reflexivity|]. split.
    + split; simpl; rewrite ?Nat.add_0_r, <- ?app_assoc; auto; lia.
    + split; [reflexivity|]. repeat constructor.
  - eexists _, [_]. split; [reflexivity|]. split.
    + split; simpl; rewrite ?Nat.add_0_r; auto; lia.
    + split; [reflexivity|]. repeat constructor.
Qed.

Lemma now_advance timezone w :
  exists w',
    datetime_now timezone w = (Return (mkDatetime (clock w (asked w)) timezone), w')
    /\ advance w w' [(DatetimeNow, environ w)] 0 1.
Proof.
  eexists. split; [reflexivity|].
  split; simpl; rewrite ?Nat.add_0_r; auto; lia.
Qed.

Lemma sensor_io_app obs1 obs2 :
  sensor_io (obs1 ++ obs2) = sensor_io obs1 ++ sensor_io obs2.
Proof. unfold sensor_io. now rewrite fmap_app, filter_app. Qed.

Lemma collect_advance timezone sensors : forall acc w,
  exists w' obs,
    collect_time_series timezone sensors acc w
    = (Return (dict_update acc
                 (occurrences (files w) (clock w) timezone (opened w) (asked w)
                    sensors)), w')
    /\ advance w w' obs (length sensors) (length sensors)
    /\ sensor_io obs = sensor_calls sensors
    /\ Forall (fun o => is_network o.1 = false) obs.
Proof.
  induction sensors as [|s rest IH]; intros acc w.
  - exists w, []. split; [reflexivity|]. split; [apply advance_refl|].
    split; [reflexivity|constructor].
  - destruct (reader_advance s w) as (w1 & obs1 & Hr & Ha1 & Hio1 & Hn1).
    destruct (now_advance timezone w1) as (w2 & Hnow & Ha2).
    destruct (IH (dict_set s [(mkDatetime (clock w1 (asked w1)) timezone,
                               reading (files w) (opened w) s)] acc) w2)
      as (w3 & obs3 & Hc & Ha3 & Hio3 & Hn3).
    exists w3, ((obs1 ++ [(DatetimeNow, environ w1)]) ++ obs3).
    split.
    + simpl. unfold bind at 1. rewrite Hr. unfold bind at 1. rewrite Hnow, Hc.
      pose proof (advance_trans _ _ _ _ _ _ _ _ _ Ha1 Ha2) as Ha12.
      destruct Ha12, Ha1. 
      rewrite adv_files0, adv_clock0, adv_opened0, adv_asked0.
      rewrite adv_clock1, adv_asked1.
      repeat f_equal; lia.
    + split; [|split].
      * pose proof (advance_trans _ _ _ _ _ _ _ _ _
                      (advance_trans _ _ _ _ _ _ _ _ _ Ha1 Ha2) Ha3) as Ha.
        simpl in Ha. exact Ha.
      * rewrite !sensor_io_app, Hio1, Hio3. reflexivity.
      * repeat (apply Forall_app; split); try assumption. repeat constructor.
Qed.

(* ===================================================================== *)
(** ** Dictionaries *)
(* ===================================================================== *)

Section DictFacts.
Context {V : Type}.
Implicit Types (d items : dict V) (k : string) (v : V).

Lemma dict_get_set k k' v d :
  dict_get k (dict_set k' v d) = if decide (k' = k) then Some v else dict_get k d.
Proof.
  induction d as [|[k0 v0] d IH]; simpl.
  - destruct (String.eqb_spec k' k), (decide (k' = k)); congruence.
  - destruct (String.eqb_spec k0 k'); simpl.
    + subst k0. destruct (String.eqb_spec k' k), (decide (k' = k)); congruence.
    + rewrite IH. destruct (String.eqb_spec k0 k), (decide (k' = k)); congruence.
Qed.

Lemma dict_set_fresh k v d :
  k ∉ dict_keys d -> dict_set k v d = d ++ [(k, v)].
Proof.
  unfold dict_keys. induction d as [|[k0 v0] d IH]; simpl; intros Hk.
  - reflexivity.
  - apply not_elem_of_cons in Hk as [Hne Hk]. simpl in Hne.
    destruct (String.eqb_spec k0 k); [congruence|]. now rewrite IH.
Qed.

Lemma dict_set_keys k v d :
  k ∈ dict_keys d -> dict_keys (dict_set k v d) = dict_keys d.
Proof.
  unfold dict_keys. induction d as [|[k0 v0] d IH]; simpl; intros Hk.
  - now apply elem_of_nil in Hk.
  - destruct (String.eqb_spec k0 k); simpl; [reflexivity|].
    apply elem_of_cons in Hk as [Hk|Hk]; [congruence|]. f_equal. now apply IH.
Qed.

Lemma dict_update_fresh items : forall d,
  NoDup (dict_keys d ++ dict_keys items) -> dict_update d items = d ++ items.
Proof.
  unfold dict_update.
  induction items as [|[k v] items IH]; intros d Hnd; simpl.
  - now rewrite app_nil_r.
  - unfold dict_keys in *. simpl in Hnd.
    rewrite dict_set_fresh.
    + rewrite IH; [now rewrite <- app_assoc|].
      rewrite fmap_app, <- app_assoc. exact Hnd.
    + apply NoDup_app in Hnd as (_ & Hd & _). intros Hk.
      apply (Hd k Hk). left.
Qed.

Lemma dict_update_get_notin items : forall d k,
  k ∉ dict_keys items -> dict_get k (dict_update d items) = dict_get k d.
Proof.
  unfold dict_update, dict_keys.
  induction items as [|[k0 v0] items IH]; intros d k Hk; simpl; [reflexivity|].
  apply not_elem_of_cons in Hk as [Hne Hk]. simpl in Hne.
  rewrite IH by exact Hk. rewrite dict_get_set.
  destruct (decide (k0 = k)); congruence.
Qed.

Lemma dict_update_get_last items : forall d k v i,
  items !! i = Some (k, v) ->
  (forall j v', i < j -> items !! j <> Some (k, v')) ->
  dict_get k (dict_update d items) = Some v.
Proof.
  induction items as [|[k0 v0] items IH]; intros d k v i Hi Hlast.
  - discriminate.
  - destruct i as [|i]; simpl in Hi.
    + injection Hi as -> ->. change (dict_update d ((k, v) :: items))
        with (dict_update (dict_set k v d) items).
      rewrite dict_update_get_notin.
      * rewrite dict_get_set. now rewrite decide_True.
      * unfold dict_keys. intros [[k' v'] [Hk [j Hj]%list_elem_of_lookup_1]]%list_elem_of_fmap_1.
        simpl in Hk. subst k'. apply (Hlast (S j) v'); [lia|exact Hj].
    + change (dict_update d ((k0, v0) :: items))
        with (dict_update (dict_set k0 v0 d) items).
      apply (IH _ _ _ i Hi). intros j v' Hj. apply (Hlast (S j) v'). lia.
Qed.

Lemma dict_update_keys items : forall d,
  dict_keys (dict_update d items)
  = dict_keys d
    ++ filter (fun k => k ∉ dict_keys d) (first_occurrences (dict_keys items)).
Proof.
  induction items as [|[k v] items IH]; intros d.
  - simpl. now rewrite app_nil_r.
  - change (dict_update d ((k, v) :: items))
      with (dict_update (dict_set k v d) items).
    rewrite IH. change (dict_keys ((k, v) :: items)) with (k :: dict_keys items).
    simpl first_occurrences. rewrite filter_cons.
    destruct (decide (k ∉ dict_keys d)) as [Hk|Hk].
    + rewrite dict_set_fresh by exact Hk. unfold dict_keys.
      rewrite (fmap_app fst d [(k, v)]), <- app_assoc. simpl. do 2 f_equal.
      rewrite list_filter_filter. apply list_filter_iff. intros x.
      rewrite not_elem_of_app, not_elem_of_cons, elem_of_nil.
      tauto.
    + apply dec_stable in Hk. rewrite dict_set_keys by exact Hk. f_equal.
      rewrite list_filter_filter. apply list_filter_iff. intros x.
      split; [|tauto]. intros Hx. split; [exact Hx|]. intros ->. contradiction.
Qed.

End DictFacts.

Lemma first_occurrences_NoDup l : NoDup (first_occurrences l).
Proof.
  induction l as [|x l IH]; simpl; constructor.
  - intros [Hx _]%list_elem_of_filter. now apply Hx.
  - now apply NoDup_filter.
Qed.

Lemma first_occurrences_id l : NoDup l -> first_occurrences l = l.
Proof.
  induction 1 as [|x l Hx _ IH]; simpl; [reflexivity|].
  rewrite IH. f_equal. clear IH.
  induction l as [|y l IHl]; [reflexivity|].
  apply not_elem_of_cons in Hx as [Hne Hx].
  rewrite filter_cons_True by congruence. f_equal. now apply IHl.
Qed.

Lemma series_name_inj a b : series_name a = series_name b -> a = b.
Proof. unfold series_name. apply String.app_inj. Qed.

Lemma dict_get_rename (d : dict series) k :
  dict_get (series_name k) (rename <$> d) = dict_get k d.
Proof.
  induction d as [|[k0 v0] d IH]; [reflexivity|].
  rewrite fmap_cons. unfold rename at 1. cbn [dict_get fst snd]. rewrite IH.
  destruct (String.eqb_spec k0 k) as [->|Hne].
  - now rewrite String.eqb_refl.
  - destruct (String.eqb_spec (series_name k0) (series_name k)) as [He|_];
      [|reflexivity]. now apply series_name_inj in He.
Qed.

Lemma rename_keys (d : dict series) :
  dict_keys (rename <$> d) = series_name <$> dict_keys d.
Proof.
  unfold dict_keys. induction d as [|it d IH]; [reflexivity|].
  rewrite !fmap_cons, IH. reflexivity.
Qed.

Lemma build_readings_fresh (d : dict series) :
  NoDup (dict_keys d) -> build_readings d = rename <$> d.
Proof.
  intros Hnd. unfold build_readings.
  transitivity (dict_update [] (rename <$> d)).
  - unfold dict_update. generalize (@nil (string * series)).
    clear Hnd. induction d as [|it d IH]; intros acc; [reflexivity|].
    simpl. apply IH.
  - rewrite dict_update_fresh; [reflexivity|]. simpl.
    rewrite rename_keys. apply NoDup_fmap_2; [|exact Hnd].
    intros a b. apply series_name_inj.
Qed.

Lemma occurrences_keys fs clk timezone sensors : forall o a,
  dict_keys (occurrences fs clk timezone o a sensors) = sensors.
Proof.
  induction sensors as [|s rest IH]; intros o a; [reflexivity|].
  unfold dict_keys in *. simpl. f_equal. apply IH.
Qed.

Lemma occurrences_lookup fs clk timezone sensors : forall o a i s,
  sensors !! i = Some s ->
  occurrences fs clk timezone o a sensors !! i
  = Some (s, [(mkDatetime (clk (a + i)) timezone, reading fs (o + i) s)]).
Proof.
  induction sensors as [|s0 rest IH]; intros o a i s Hi; [discriminate|].
  destruct i as [|i].
  - injection Hi as ->. now rewrite !Nat.add_0_r.
  - change (occurrences fs clk timezone (S o) (S a) rest !! i = 
            Some (s, [(mkDatetime (clk (a + S i)) timezone, reading fs (o + S i) s)])).
    rewrite (IH (S o) (S a) i s Hi).
    replace (S a + i) with (a + S i) by lia.
    replace (S o + i) with (o + S i) by lia. reflexivity.
Qed.

Lemma occurrences_length fs clk timezone sensors : forall o a,
  Forall (fun item => length item.2 = 1) (occurrences fs clk timezone o a sensors).
Proof.
  induction sensors as [|s rest IH]; intros o a; constructor; auto.
Qed.

(* ===================================================================== *)
(** ** The run *)
(* ===================================================================== *)

Ltac step := cbv beta iota zeta delta
  [async_main bind setup_logging basicConfig environ_get environ_del
   log emit new_client get_localzone ret record post_readings];
  cbn [environ files clock localzone server opened asked root_level trace].

Lemma posted_app obs1 obs2 : posted (obs1 ++ obs2) = posted obs1 ++ posted obs2.
Proof. apply omap_app. Qed.

Lemma observations_of_advance {A : Type} (m : M A) w obs :
  trace (m w).2 = trace w ++ obs -> observations_of m w = obs.
Proof. intros H. unfold observations_of. rewrite H. apply drop_app_length. Qed.

Lemma log_time_series_advance d : forall w,
  exists w' obs,
    log_time_series d w = (Return tt, w')
    /\ advance w w' obs 0 0
    /\ posted obs = []
    /\ sensor_io obs = [].
Proof.
  induction d as [|[s ts] d IH]; intros w.
  - exists w, []. split; [reflexivity|]. split; [apply advance_refl|]. auto.
  - destruct (IH (record (LogCall INFO "Sensor %s: %.2f" [AStr s; ASeries ts]) w))
      as (w' & obs & Hl & Ha & Hp & Hs).
    exists w', ([(LogCall INFO "Sensor %s: %.2f" [AStr s; ASeries ts], environ w)] ++ obs).
    split; [exact Hl|]. split.
    + apply (advance_trans _ _ _ _ _ 0 0 0 0 (advance_record _ w) Ha).
    + rewrite posted_app, sensor_io_app, Hp, Hs. split; reflexivity.
Qed.

Lemma async_main_run arguments w pw :
  environ w !! STANLEY_PASSWORD = Some pw ->
  let stanley :=
    mkClient (url arguments) (ca_cert arguments) (username arguments) pw in
  let env' := delete STANLEY_PASSWORD (environ w) in
  let readings :=
    build_readings
      (dict_update []
         (occurrences (files w) (clock w) (localzone w) (opened w) (asked w)
            (sensor arguments))) in
  exists after,
    observations_of (async_main arguments) w
    = [(BasicConfig (select_level (verbose arguments)), environ w);
       (EnvironGet STANLEY_PASSWORD, environ w);
       (LogCall DEBUG "Removing password from environment" [], environ w);
       (EnvironDel STANLEY_PASSWORD, env');
       (LogCall DEBUG "Using Stanley server %s" [AStr (url arguments)], env');
       (NewClient stanley, env');
       (GetLocalzone, env')] ++ after
    /\ Forall (fun o => o.2 = env') after
    /\ posted after = [(stanley, readings)]
    /\ sensor_io after = sensor_calls (sensor arguments)
    /\ environ (async_main arguments w).2 = env'
    /\ (async_main arguments w).1 = server w readings.
Proof.
  intros Hpw stanley env' readings.
  set (w7 := mkWorld env' (files w) (clock w) (localzone w) (server w)
               (opened w) (asked w) (select_level (verbose arguments))
               (trace w ++
                [(BasicConfig (select_level (verbose arguments)), environ w);
                 (EnvironGet STANLEY_PASSWORD, environ w);
                 (LogCall DEBUG "Removing password from environment" [], environ w);
                 (EnvironDel STANLEY_PASSWORD, env');
                 (LogCall DEBUG "Using Stanley server %s" [AStr (url arguments)], env');
                 (NewClient stanley, env');
                 (GetLocalzone, env')])).
  destruct (collect_advance (localzone w) (sensor arguments) [] w7)
    as (w8 & obs8 & Hc & Ha8 & Hio8 & Hn8).
  destruct (log_time_series_advance
              (dict_update []
                 (occurrences (files w7) (clock w7) (localzone w) (opened w7)
                    (asked w7) (sensor arguments))) w8)
    as (w9 & obs9 & Hl & Ha9 & Hp9 & Hio9).
  destruct Ha8 as [E8 _ _ _ S8 _ _ T8 F8], Ha9 as [E9 _ _ _ S9 _ _ T9 F9].
  assert (Hrun : async_main arguments w
    = match server w readings with
      | Return _ =>
          (Return tt,
           record (LogCall INFO "All done" [])
             (record (PostReadings stanley readings)
                (record (LogCall INFO "Sending values to Stanley server..." []) w9)))
      | Raise e =>
          (Raise e,
           record (PostReadings stanley readings)
             (record (LogCall INFO "Sending values to Stanley server..." []) w9))
      end).
  { step. rewrite Hpw. step. rewrite Hpw. step.
    rewrite <- !app_assoc. cbn [app].
    fold env' stanley.
    match goal with
    | |- context [collect_time_series _ _ _ ?x] => change x with w7
    end.
    rewrite Hc, Hl.
    match goal with
    | |- context [server w9 ?r] =>
        replace (server w9 r) with (server w readings)
          by (rewrite S9, S8; reflexivity)
    end.
    destruct (server w readings); rewrite <- ?app_assoc; reflexivity. }
  assert (Henv9 : environ w9 = env').
  { now rewrite E9, E8. }
  assert (Htr9 : trace w9 = trace w7 ++ obs8 ++ obs9).
  { now rewrite T9, T8, app_assoc. }
  assert (Hsnap : Forall (fun o => o.2 = env') (obs8 ++ obs9)).
  { apply Forall_app. split.
    - exact F8.
    - now rewrite E8 in F9. }
  set (tail :=
    [(LogCall INFO "Sending values to Stanley server..." [], env');
     (PostReadings stanley readings, env')]).
  exists (obs8 ++ obs9 ++ tail
          ++ match server w readings with
             | Return _ => [(LogCall INFO "All done" [], env')]
             | Raise _ => []
             end).
  split; [|split; [|split; [|split; [|split]]]].
  - apply observations_of_advance. rewrite Hrun.
    destruct (server w readings); cbn [snd record trace environ];
      rewrite Htr9, Henv9; unfold w7; cbn [trace];
      rewrite <- ?app_assoc; reflexivity.
  - apply Forall_app in Hsnap as [H8 H9].
    repeat (apply Forall_app; split); try assumption.
    + repeat constructor.
    + destruct (server w readings); repeat constructor.
  - rewrite !posted_app, Hp9.
    assert (Hp8 : posted obs8 = []).
    { clear -Hn8. induction Hn8 as [|[e env] l He _ IH]; [reflexivity|].
      unfold posted in *. cbn [omap list_omap fst]. 
      destruct e; try discriminate He; exact IH. }
    rewrite Hp8. destruct (server w readings); reflexivity.
  - rewrite !sensor_io_app, Hio8, Hio9.
    destruct (server w readings); cbn; now rewrite app_nil_r.
  - rewrite Hrun. destruct (server w readings); exact Henv9.
  - rewrite Hrun. destruct (server w readings) as [[]|e]; reflexivity.
Qed.

(** C6.  With [STANLEY_PASSWORD] unset, [async_main] ends in an uncaught
    [KeyError], the process exits with status 1, and the run has neither
    built the archive client nor posted anything. *)
Theorem missing_password_is_fatal arguments w :
  environ w !! STANLEY_PASSWORD = None ->
  (async_main arguments w).1 = Raise (KeyError STANLEY_PASSWORD)
  /\ (main arguments w).1 = 1%Z
  /\ Forall (fun o => is_network o.1 = false)
       (observations_of (async_main arguments) w)
  /\ posted (observations_of (async_main arguments) w) = [].
Proof.
  intros Hno.
  assert (Hrun : async_main arguments w
    = (Raise (KeyError STANLEY_PASSWORD),
       record (EnvironGet STANLEY_PASSWORD)
         (basicConfig (select_level (verbose arguments)) w).2)).
  { step. rewrite Hno. reflexivity. }
  assert (Hobs : observations_of (async_main arguments) w
    = [(BasicConfig (select_level (verbose arguments)), environ w);
       (EnvironGet STANLEY_PASSWORD, environ w)]).
  { apply observations_of_advance. rewrite Hrun. cbn.
    now rewrite <- app_assoc. }
  unfold main. rewrite Hobs, Hrun.
  repeat split; repeat constructor.
Qed.

Lemma missing_password_is_fatal_witness :
  (main (sample_arguments ["28-000001"]) (sample_world ∅)).1 = 1%Z
  /\ posted (observations_of (async_main (sample_arguments ["28-000001"]))
               (sample_world ∅)) = [].
Proof.
  destruct (missing_password_is_fatal (sample_arguments ["28-000001"])
              (sample_world ∅)) as (_ & Hexit & _ & Hposted).
  - vm_compute. reflexivity.
  - split; [exact Hexit|exact Hposted].
Defined.

(** C7.  With [STANLEY_PASSWORD] set, the run reads the variable, deletes
    it before any event that builds the client or reaches the network,
    the environment lacks it at the deletion and at every later event,
    and lacks it when the run ends. *)
Theorem password_is_scrubbed arguments w pw :
  environ w !! STANLEY_PASSWORD = Some pw ->
  exists before after,
    observations_of (async_main arguments) w
    = before
      ++ (EnvironDel STANLEY_PASSWORD, delete STANLEY_PASSWORD (environ w))
      :: after
    /\ (EnvironGet STANLEY_PASSWORD, environ w) ∈ before
    /\ Forall (fun o => is_network o.1 = false) before
    /\ Forall (fun o => o.2 !! STANLEY_PASSWORD = None)
         ((EnvironDel STANLEY_PASSWORD, delete STANLEY_PASSWORD (environ w))
          :: after)
    /\ posted after <> []
    /\ environ (async_main arguments w).2 !! STANLEY_PASSWORD = None.
Proof.
  intros Hpw.
  destruct (async_main_run arguments w pw Hpw)
    as (after & Hobs & Hsnap & Hposted & _ & Henv & _).
  eexists [_; _; _], ([_; _; _] ++ after).
  split; [exact Hobs|]. split; [|split; [|split; [|split]]].
  - right. left.
  - repeat constructor.
  - constructor; [apply lookup_delete_eq|].
    apply Forall_app. split.
    + repeat (constructor; [apply lookup_delete_eq|]). constructor.
    + eapply Forall_impl; [exact Hsnap|].
      intros o ->. apply lookup_delete_eq.
  - rewrite posted_app, Hposted. discriminate.
  - rewrite Henv. apply lookup_delete_eq.
Qed.

Lemma password_is_scrubbed_witness :
  environ (async_main (sample_arguments ["28-000001"])
             (sample_world sample_environ)).2 !! STANLEY_PASSWORD = None.
Proof.
  destruct (password_is_scrubbed (sample_arguments ["28-000001"])
              (sample_world sample_environ) "secret")
    as (before & after & _ & _ & _ & _ & _ & Henv).
  - vm_compute. reflexivity.
  - exact Henv.
Defined.

(** C8.  [setup_logging] configures the level [select_level] picks:
    warning when the count is absent or 0, info when it is 1, debug when
    it is 2 or more. *)
Theorem logging_level_by_verbosity (v : option Z) (w : World) :
  root_level (setup_logging v w).2 = select_level v
  /\ (v = None \/ v = Some 0%Z -> select_level v = WARN)
  /\ (v = Some 1%Z -> select_level v = INFO)
  /\ (forall n, v = Some n -> (2 <= n)%Z -> select_level v = DEBUG).
Proof.
  split; [reflexivity|]. split; [|split].
  - intros [-> | ->]; reflexivity.
  - intros ->. reflexivity.
  - intros n -> Hn. unfold select_level.
    destruct (Z.leb_spec n 0); [lia|].
    destruct (Z.eqb_spec n 1); [lia|]. reflexivity.
Qed.

(** C10.  With no sensor configured (and the password set) the run still
    builds the client with the given credentials and posts once, an
    empty payload; the run ends as the server call ends. *)
Theorem no_sensors_still_posts arguments w pw :
  environ w !! STANLEY_PASSWORD = Some pw ->
  sensor arguments = [] ->
  posted (observations_of (async_main arguments) w)
  = [(mkClient (url arguments) (ca_cert arguments) (username arguments) pw, [])]
  /\ (async_main arguments w).1 = server w [].
Proof.
  intros Hpw Hs.
  destruct (async_main_run arguments w pw Hpw)
    as (after & Hobs & _ & Hposted & _ & _ & Hout).
  rewrite Hs in Hposted, Hout. split; [|exact Hout].
  rewrite Hobs, posted_app, Hposted. reflexivity.
Qed.

Lemma no_sensors_still_posts_witness :
  posted (observations_of (async_main (sample_arguments []))
            (sample_world sample_environ))
  = [(mkClient "https://stanley.example.org" None "pi" "secret", [])].
Proof.
  destruct (no_sensors_still_posts (sample_arguments [])
              (sample_world sample_environ) "secret") as [Hposted _].
  - vm_compute. reflexivity.
  - reflexivity.
  - exact Hposted.
Defined.

Lemma filter_all {A : Type} (P : A -> Prop) `{!forall x, Decision (P x)} (l : list A) :
  (forall x, P x) -> filter P l = l.
Proof.
  intros HP. induction l as [|x l IH]; [reflexivity|].
  now rewrite filter_cons_True, IH.
Qed.

Lemma collected_keys fs clk timezone o a sensors :
  dict_keys (dict_update [] (occurrences fs clk timezone o a sensors))
  = first_occurrences sensors.
Proof.
  rewrite dict_update_keys, occurrences_keys. simpl.
  apply filter_all. intros x. apply not_elem_of_nil.
Qed.

Lemma sensor_io_prologue (l : list observation) after :
  sensor_io l = [] -> sensor_io (l ++ after) = sensor_io after.
Proof. intros H. now rewrite sensor_io_app, H. Qed.

(** C5.  For a list of distinct sensor identifiers the run posts one
    payload whose keys are exactly [/sensors/temperature/<id>] for the
    configured identifiers, in their order, each holding a series of one
    point. *)
Theorem payload_keys_of_distinct_sensors arguments w pw :
  environ w !! STANLEY_PASSWORD = Some pw ->
  NoDup (sensor arguments) ->
  exists stanley readings,
    posted (observations_of (async_main arguments) w) = [(stanley, readings)]
    /\ dict_keys readings = series_name <$> sensor arguments
    /\ Forall (fun item => length item.2 = 1) readings.
Proof.
  intros Hpw Hnd.
  destruct (async_main_run arguments w pw Hpw)
    as (after & Hobs & _ & Hposted & _ & _ & _).
  eexists _, _. split.
  { rewrite Hobs, posted_app, Hposted. reflexivity. }
  set (occ := occurrences (files w) (clock w) (localzone w) (opened w)
                (asked w) (sensor arguments)).
  assert (Hocc : dict_update [] occ = occ).
  { rewrite dict_update_fresh; [reflexivity|]. simpl.
    unfold occ. now rewrite occurrences_keys. }
  rewrite Hocc, build_readings_fresh
    by (unfold occ; now rewrite occurrences_keys).
  split.
  - rewrite rename_keys. unfold occ. now rewrite occurrences_keys.
  - apply Forall_fmap. eapply Forall_impl; [apply occurrences_length|].
    intros item H. exact H.
Qed.

Lemma payload_keys_of_distinct_sensors_witness :
  exists stanley readings,
    posted (observations_of
              (async_main (sample_arguments ["28-000001"; "28-000002"]))
              (sample_world sample_environ)) = [(stanley, readings)]
    /\ dict_keys readings
       = ["/sensors/temperature/28-000001"; "/sensors/temperature/28-000002"]
    /\ Forall (fun item => length item.2 = 1) readings.
Proof.
  apply (payload_keys_of_distinct_sensors
           (sample_arguments ["28-000001"; "28-000002"])
           (sample_world sample_environ) "secret").
  - vm_compute. reflexivity.
  - exact (bool_decide_unpack (NoDup ["28-000001"; "28-000002"]) I).
Defined.

(** The payload is keyed by series name, so a run does not always post
    one series per element of the sensor list: with the same identifier
    given twice a single series is posted. *)
Lemma repeated_sensor_gives_one_series :
  ~ (forall arguments w pw,
       environ w !! STANLEY_PASSWORD = Some pw ->
       exists stanley readings,
         posted (observations_of (async_main arguments) w)
         = [(stanley, readings)]
         /\ dict_keys readings = series_name <$> sensor arguments).
Proof.
  intros H.
  destruct (H (sample_arguments ["28-000001"; "28-000001"])
              (sample_world sample_environ) "secret")
    as (stanley & readings & Hposted & Hkeys).
  - vm_compute. reflexivity.
  - vm_compute in Hposted. injection Hposted as _ <-.
    vm_compute in Hkeys. discriminate Hkeys.
Qed.

(** X17.  The payload holds one series per distinct identifier, in order
    of first occurrence, and the series of a repeated identifier is the
    single point read at its last occurrence; the reader and then the
    clock are still called once per element of the sensor list, in
    order. *)
Theorem one_series_per_distinct_sensor arguments w pw :
  environ w !! STANLEY_PASSWORD = Some pw ->
  exists stanley readings,
    posted (observations_of (async_main arguments) w) = [(stanley, readings)]
    /\ sensor_io (observations_of (async_main arguments) w)
       = sensor_calls (sensor arguments)
    /\ dict_keys readings = series_name <$> first_occurrences (sensor arguments)
    /\ (forall i s,
          sensor arguments !! i = Some s ->
          (forall j, i < j -> sensor arguments !! j <> Some s) ->
          dict_get (series_name s) readings
          = Some [(mkDatetime (clock w (asked w + i)) (localzone w),
                   reading (files w) (opened w + i) s)]).
Proof.
  intros Hpw.
  destruct (async_main_run arguments w pw Hpw)
    as (after & Hobs & _ & Hposted & Hio & _ & _).
  eexists _, _. split; [|split; [|split]].
  - rewrite Hobs, posted_app, Hposted. reflexivity.
  - rewrite Hobs. rewrite sensor_io_prologue; [exact Hio|reflexivity].
  - rewrite build_readings_fresh, rename_keys, collected_keys; [reflexivity|].
    rewrite collected_keys. apply first_occurrences_NoDup.
  - intros i s Hi Hlast.
    rewrite build_readings_fresh
      by (rewrite collected_keys; apply first_occurrences_NoDup).
    rewrite dict_get_rename.
    eapply dict_update_get_last.
    + apply occurrences_lookup. exact Hi.
    + intros j v' Hj Hocc. apply (Hlast j Hj).
      pose proof (occurrences_keys (files w) (clock w) (localzone w)
                    (sensor arguments) (opened w) (asked w)) as Hk.
      unfold dict_keys in Hk. rewrite <- Hk, list_lookup_fmap.
      exact (f_equal (fmap fst) Hocc).
Qed.

Lemma one_series_per_distinct_sensor_witness :
  exists stanley readings,
    posted (observations_of
              (async_main (sample_arguments ["28-000001"; "28-000001"]))
              (sample_world sample_environ)) = [(stanley, readings)]
    /\ dict_keys readings = ["/sensors/temperature/28-000001"]
    /\ dict_get "/sensors/temperature/28-000001" readings
       = Some [(mkDatetime 1572868801 "Europe/Copenhagen", literal_21_562)].
Proof.
  destruct (one_series_per_distinct_sensor
              (sample_arguments ["28-000001"; "28-000001"])
              (sample_world sample_environ) "secret")
    as (stanley & readings & Hposted & _ & Hkeys & Hget).
  - vm_compute. reflexivity.
  - exists stanley, readings. split; [exact Hposted|]. split; [exact Hkeys|].
    etransitivity; [apply (Hget 1 "28-000001" eq_refl)|].
    + intros [|[|j]] Hj; [lia|lia|discriminate].
    + vm_compute. reflexivity.
Defined.

(* ===================================================================== *)
(** ** Further properties of the patterns, the reader and the run *)
(* ===================================================================== *)

Lemma chars_of_append (s t : string) :
  list_ascii_of_string (s +:+ t)
  = list_ascii_of_string s ++ list_ascii_of_string t.
Proof.
  induction s as [|c s IH]; [reflexivity|].
  change (String c s +:+ t) with (String c (s +:+ t)).
  cbn [list_ascii_of_string]. now rewrite IH.
Qed.

Lemma chars_length (s : string) :
  length (list_ascii_of_string s) = String.length s.
Proof. induction s as [|c s IH]; simpl; congruence. Qed.

(** One step of the greedy search of [cs* T]: first everything that
    starts one character further, then [T] right here. *)
Lemma matches_star_seq_cons cs T c (s : chars) :
  in_charset cs c = true ->
  matches (Seq (Star cs) T) (c :: s)
  = ((fun x => (S x.1, x.2)) <$> matches (Seq (Star cs) T) s)
    ++ ((fun y => (y.1, y.2 ++ [])) <$> matches T (c :: s)).
Proof.
  intros Hc. cbn [matches star_lengths]. rewrite Hc.
  rewrite fmap_app, bind_app. f_equal.
  - rewrite <- !list_fmap_compose, list_fmap_bind.
    induction (star_lengths cs s) as [|n l IH]; [reflexivity|].
    rewrite fmap_cons, !bind_cons, fmap_app, IH. f_equal.
    cbn [fst snd drop]. rewrite <- list_fmap_compose. reflexivity.
  - cbn. now rewrite app_nil_r.
Qed.

Lemma matches_star_seq_stop cs T (s : chars) :
  match s with c :: _ => in_charset cs c = false | [] => True end ->
  matches (Seq (Star cs) T) s = (fun y => (y.1, y.2 ++ [])) <$> matches T s.
Proof.
  intros Hs. cbn [matches].
  assert (Hl : star_lengths cs s = [0]).
  { destruct s as [|c s]; [reflexivity|]. simpl. now rewrite Hs. }
  rewrite Hl. cbn. now rewrite app_nil_r.
Qed.

Lemma matches_star_seq_none cs T (s : chars) :
  (forall n, n <= length s -> matches T (drop n s) = []) ->
  matches (Seq (Star cs) T) s = [].
Proof.
  induction s as [|c s IH]; intros Hno.
  - rewrite matches_star_seq_stop by exact I.
    pose proof (Hno 0 ltac:(simpl; lia)) as H0. cbn [drop] in H0.
    now rewrite H0.
  - pose proof (Hno 0 ltac:(simpl; lia)) as H0. cbn [drop] in H0.
    destruct (in_charset cs c) eqn:Hc.
    + rewrite matches_star_seq_cons by exact Hc. rewrite H0, IH; [reflexivity|].
      intros n Hn. apply (Hno (S n)). simpl. lia.
    + rewrite matches_star_seq_stop by exact Hc. now rewrite H0.
Qed.

(** The greedy [.*] settles on the last place where the rest of the
    pattern matches. *)
Lemma matches_star_seq_last T (a b : chars) :
  Forall (fun c => is_dot c = true) a ->
  (forall n, 1 <= n <= length b -> matches T (drop n b) = []) ->
  exists others,
    matches (Seq (Star AnyChar) T) (a ++ b)
    = ((fun y => (length a + y.1, y.2 ++ [])) <$> matches T b) ++ others.
Proof.
  intros Ha Hno. induction Ha as [|c a Hc _ [others IH]].
  - exists []. rewrite app_nil_r. cbn [app length].
    destruct b as [|c b].
    + now rewrite matches_star_seq_stop.
    + destruct (in_charset AnyChar c) eqn:Hc.
      * rewrite matches_star_seq_cons by exact Hc.
        rewrite matches_star_seq_none; [reflexivity|].
        intros n Hn. apply (Hno (S n)). simpl. lia.
      * now rewrite matches_star_seq_stop.
  - exists (((fun x => (S x.1, x.2)) <$> others)
            ++ ((fun y => (y.1, y.2 ++ [])) <$> matches T (c :: a ++ b))).
    cbn [app]. rewrite matches_star_seq_cons by exact Hc.
    rewrite IH, fmap_app, <- app_assoc, <- list_fmap_compose. reflexivity.
Qed.

(** Completeness of the search: a match of the rest of the pattern after
    a run of [.] characters is found. *)
Lemma matches_star_seq_intro T (a b : chars) x :
  Forall (fun c => is_dot c = true) a ->
  x ∈ matches T b ->
  (length a + x.1, x.2 ++ []) ∈ matches (Seq (Star AnyChar) T) (a ++ b).
Proof.
  intros Ha Hx. induction Ha as [|c a Hc _ IH].
  - cbn [app length]. 
    assert (Hin : (x.1, x.2 ++ []) ∈ (fun y => (y.1, y.2 ++ [])) <$> matches T b)
      by (apply list_elem_of_fmap_2' with x; auto).
    destruct b as [|c b].
    + now rewrite matches_star_seq_stop.
    + destruct (in_charset AnyChar c) eqn:Hc.
      * rewrite matches_star_seq_cons by exact Hc. apply elem_of_app. now right.
      * now rewrite matches_star_seq_stop.
  - cbn [app]. rewrite matches_star_seq_cons by exact Hc.
    apply elem_of_app. left.
    apply list_elem_of_fmap_2' with (length a + x.1, x.2 ++ []); auto.
Qed.

(** Soundness of the search. *)
Lemma matches_star_seq_elim T (s : chars) y :
  y ∈ matches (Seq (Star AnyChar) T) s ->
  exists n x,
    y = (n + x.1, x.2 ++ [])
    /\ x ∈ matches T (drop n s)
    /\ length (take n s) = n
    /\ Forall (fun c => is_dot c = true) (take n s).
Proof.
  cbn [matches].
  intros [a [[x [-> Hx]]%list_elem_of_fmap_1 Ha]]%list_elem_of_bind.
  apply list_elem_of_fmap_1 in Ha as [n [-> Hn]]. cbn [fst snd] in *.
  apply star_lengths_elem in Hn as [Hlen HF].
  exists n, x. auto.
Qed.

Lemma head_fmap {A B : Type} (f : A -> B) (l : list A) :
  head (f <$> l) = f <$> head l.
Proof. destruct l; reflexivity. Qed.

Lemma matches_Lit_app t (s : chars) :
  matches (Lit t) (list_ascii_of_string t ++ s) = [(String.length t, [])].
Proof.
  induction t as [|c t IH]; [reflexivity|].
  cbn [Lit list_ascii_of_string app matches in_charset].
  rewrite Ascii.eqb_refl, bind_singleton. cbn [fst snd drop].
  rewrite drop_0, IH. reflexivity.
Qed.

Lemma matches_Lit_inv t (s : chars) x :
  x ∈ matches (Lit t) s -> exists s', s = list_ascii_of_string t ++ s'.
Proof.
  revert s x. induction t as [|c t IH]; intros s x; [now exists s|].
  cbn [Lit matches].
  intros [y [[z [-> Hz]]%list_elem_of_fmap_1 Hy]]%list_elem_of_bind.
  destruct s as [|c' s]; [now apply elem_of_nil in Hy|].
  cbn [in_charset] in Hy.
  destruct (Ascii.eqb c c') eqn:Hc; [|now apply elem_of_nil in Hy].
  apply Ascii.eqb_eq in Hc as <-.
  apply list_elem_of_singleton in Hy as ->. cbn [fst drop] in Hz.
  rewrite drop_0 in Hz. apply IH in Hz as [s' ->]. now exists s'.
Qed.

Lemma matches_seq_Lit_app t G (u : chars) :
  matches (Seq (Lit t) G) (list_ascii_of_string t ++ u)
  = (fun y => (String.length t + y.1, y.2 ++ [])) <$> matches G u.
Proof.
  cbn [matches]. rewrite matches_Lit_app, bind_singleton. cbn [fst snd].
  rewrite <- chars_length, drop_app_length. reflexivity.
Qed.

Lemma matches_seq_Lit_mismatch c t G (s : chars) :
  match s with c' :: _ => c' <> c | [] => True end ->
  matches (Seq (Lit (String c t)) G) s = [].
Proof.
  intros Hs.
  assert (Hl : matches (Lit (String c t)) s = []).
  { cbn [Lit matches]. destruct s as [|c' s]; [reflexivity|].
    cbn [in_charset]. destruct (Ascii.eqb_spec c c'); [congruence|reflexivity]. }
  cbn [matches] in *. now rewrite Hl.
Qed.

Lemma star_lengths_head cs (p r : chars) :
  Forall (fun c => in_charset cs c = true) p ->
  match r with c :: _ => in_charset cs c = false | [] => True end ->
  head (star_lengths cs (p ++ r)) = Some (length p).
Proof.
  intros Hp Hr. induction Hp as [|c p Hc _ IH].
  - destruct r as [|c r]; [reflexivity|]. simpl. now rewrite Hr.
  - cbn [app star_lengths length]. rewrite Hc, head_app.
    destruct (star_lengths cs (p ++ r)) as [|n l]; [discriminate|].
    cbn in *. congruence.
Qed.

Lemma digits_value_inv (ds : chars) : forall acc v,
  digits_value acc ds = Some v -> Forall (fun c => is_digit c = true) ds.
Proof.
  induction ds as [|c ds IH]; intros acc v; [constructor|].
  cbn [digits_value]. destruct (is_digit c) eqn:Hc; [|discriminate].
  intros Hv. constructor; [exact Hc|]. eapply IH, Hv.
Qed.

(** The texts [int_value] reads: an optional minus sign, then one digit
    or more. *)
Lemma int_value_inv text N :
  int_value text = Some N ->
  exists (neg : bool) d ds,
    list_ascii_of_string text = (if neg then ["-"%char] else []) ++ d :: ds
    /\ Forall (fun c => is_digit c = true) (d :: ds).
Proof.
  unfold int_value.
  assert (Hdec : forall l v, decimal l = Some v ->
            exists d ds, l = d :: ds /\ Forall (fun c => is_digit c = true) (d :: ds)).
  { intros [|d ds] v; [discriminate|]. intros Hv.
    exists d, ds. split; [reflexivity|]. eapply digits_value_inv, Hv. }
  destruct (list_ascii_of_string text) as [|c l] eqn:Hl; [discriminate|].
  destruct (Ascii.eqb_spec c "-") as [->|Hc].
  - destruct (decimal l) as [v|] eqn:Hv; [|discriminate]. intros _.
    destruct (Hdec l v Hv) as (d & ds & -> & HF).
    now exists true, d, ds.
  - intros HN.
    assert (Hv : decimal (c :: l) = Some N).
    { revert HN. destruct c as [[] [] [] [] [] [] [] []]; try exact id.
      contradiction Hc; reflexivity. }
    destruct (Hdec _ _ Hv) as (d & ds & [= -> ->] & HF).
    now exists false, d, ds.
Qed.

Lemma matches_Plus_head cs d (ds r : chars) :
  Forall (fun c => in_charset cs c = true) (d :: ds) ->
  match r with c :: _ => in_charset cs c = false | [] => True end ->
  head (matches (Plus cs) (d :: ds ++ r)) = Some (S (length ds), []).
Proof.
  intros [Hd Hds]%Forall_cons_1 Hr. unfold Plus. cbn [matches].
  rewrite Hd, bind_singleton. cbn [fst snd drop].
  rewrite drop_0, <- list_fmap_compose.
  pose proof (star_lengths_head cs ds r Hds Hr) as Hh.
  destruct (star_lengths cs (ds ++ r)) as [|n l]; [discriminate|].
  injection Hh as ->. reflexivity.
Qed.

Lemma matches_Plus_not_digit cs (s : chars) :
  match s with c :: _ => in_charset cs c = false | [] => True end ->
  matches (Plus cs) s = [].
Proof.
  intros Hs. unfold Plus. cbn [matches].
  destruct s as [|c s]; [reflexivity|]. now rewrite Hs.
Qed.

(** On an integer text followed by something that is not a digit,
    [-?\d+] first takes the whole text. *)
Lemma matches_signed_digits_head text N (r : chars) :
  int_value text = Some N ->
  match r with c :: _ => is_digit c = false | [] => True end ->
  head (matches (Seq (Opt (Chr (Literal "-"%char))) (Plus DigitChar))
          (list_ascii_of_string text ++ r))
  = Some (String.length text, []).
Proof.
  intros (neg & d & ds & Ht & HF)%int_value_inv Hr.
  rewrite <- chars_length, Ht. destruct neg.
  - cbn [app matches in_charset length]. rewrite Ascii.eqb_refl.
    rewrite bind_app, bind_singleton. cbn [fst snd drop app].
    rewrite ?drop_0, head_app, head_fmap.
    pose proof (matches_Plus_head DigitChar d ds r HF Hr) as Hh.
    unfold captures in *. rewrite Hh. reflexivity.
  - cbn [app length].
    assert (Hd : Ascii.eqb "-" d = false).
    { apply Forall_cons_1 in HF as [Hd _].
      destruct (Ascii.eqb_spec "-" d) as [<-|]; [discriminate Hd|reflexivity]. }
    cbn [matches in_charset]. rewrite Hd. cbn [app]. rewrite bind_singleton.
    cbn [fst snd drop]. rewrite ?drop_0.
    rewrite head_fmap.
    pose proof (matches_Plus_head DigitChar d ds r HF Hr) as Hh.
    unfold captures in *. rewrite Hh. reflexivity.
Qed.

Lemma is_dot_spec c : is_dot c = true <-> c <> newline.
Proof.
  destruct c as [[] [] [] [] [] [] [] []]; vm_compute; split; congruence.
Qed.

Lemma newline_free_dots (s : string) :
  newline ∉ list_ascii_of_string s ->
  Forall (fun c => is_dot c = true) (list_ascii_of_string s).
Proof.
  intros Hs. apply Forall_forall. intros c Hc. apply is_dot_spec.
  intros ->. contradiction.
Qed.

(** Text in front: whatever [.* T] finds on [b], it also finds, in the
    same order and before anything else, on [a ++ b] when [a] has no line
    feed. *)
Lemma matches_star_seq_app T (a b : chars) :
  Forall (fun c => is_dot c = true) a ->
  exists others,
    matches (Seq (Star AnyChar) T) (a ++ b)
    = ((fun x => (length a + x.1, x.2)) <$> matches (Seq (Star AnyChar) T) b)
      ++ others.
Proof.
  intros Ha. induction Ha as [|c a Hc _ [others IH]].
  - exists []. rewrite app_nil_r. cbn [app length].
    rewrite <- (list_fmap_id (matches _ b)) at 1.
    apply list_fmap_ext. now intros _ [n g] _.
  - eexists. cbn [app]. rewrite matches_star_seq_cons by exact Hc.
    rewrite IH, fmap_app, <- app_assoc, <- list_fmap_compose. reflexivity.
Qed.

(** Characters at which [T] does not match are passed over. *)
Lemma matches_star_seq_pass T (p s : chars) :
  Forall (fun c => is_dot c = true) p ->
  (forall n, n < length p -> matches T (drop n (p ++ s)) = []) ->
  matches (Seq (Star AnyChar) T) (p ++ s)
  = (fun x => (length p + x.1, x.2)) <$> matches (Seq (Star AnyChar) T) s.
Proof.
  intros Hp. induction Hp as [|c p Hc _ IH]; intros Hno.
  - cbn [app length]. rewrite <- (list_fmap_id (matches _ s)) at 1.
    apply list_fmap_ext. now intros _ [n g] _.
  - cbn [app]. rewrite matches_star_seq_cons by exact Hc.
    pose proof (Hno 0 ltac:(simpl; lia)) as H0. rewrite drop_0 in H0.
    cbn [app] in H0. rewrite H0, app_nil_r, IH.
    + rewrite <- list_fmap_compose. reflexivity.
    + intros n Hn. apply (Hno (S n)). simpl. lia.
Qed.

Lemma re_match_Some pattern line x :
  head (matches pattern (list_ascii_of_string line)) = Some x ->
  re_match pattern line = Some (mkMatch x.1 x.2).
Proof. intros H. unfold re_match. now rewrite H. Qed.

Lemma re_match_Some_inv pattern line m :
  re_match pattern line = Some m ->
  head (matches pattern (list_ascii_of_string line)) = Some (m_end m, m_groups m).
Proof.
  unfold re_match. destruct (head _) as [[n g]|]; [|discriminate].
  now intros [= <-].
Qed.

Lemma re_match_None pattern line :
  re_match pattern line = None ->
  matches pattern (list_ascii_of_string line) = [].
Proof.
  unfold re_match. destruct (matches _ _); [reflexivity|discriminate].
Qed.

(** Newline-free text put in front of a line that matches leaves the
    groups as they are and moves the end of the match along. *)
Lemma text_in_front_keeps_groups T (front line : string) m :
  newline ∉ list_ascii_of_string front ->
  re_match (Seq (Star AnyChar) T) line = Some m ->
  re_match (Seq (Star AnyChar) T) (front +:+ line)
  = Some (mkMatch (String.length front + m_end m) (m_groups m)).
Proof.
  intros Hf Hm%re_match_Some_inv.
  destruct (matches_star_seq_app T _ (list_ascii_of_string line)
              (newline_free_dots _ Hf)) as [others Ho].
  unfold re_match. rewrite chars_of_append, Ho, head_app, head_fmap, Hm.
  cbn. now rewrite chars_length.
Qed.

Lemma drop_inside {A : Type} (p s : list A) n :
  n < length p -> exists c l, drop n (p ++ s) = c :: l /\ c ∈ p.
Proof.
  revert n. induction p as [|c p IH]; intros n Hn; [simpl in Hn; lia|].
  destruct n as [|n].
  - exists c, (p ++ s). split; [reflexivity|left].
  - destruct (IH n ltac:(simpl in Hn; lia)) as (c' & l & Hd & Hc).
    exists c', l. split; [exact Hd|now right].
Qed.

Lemma starts_with_digit_chars (s : string) :
  starts_with_digit s = false ->
  match list_ascii_of_string s with
  | c :: _ => is_digit c = false
  | [] => True
  end.
Proof. destruct s; [exact (fun _ => I)|exact id]. Qed.

Lemma int_text_chars text N c :
  int_value text = Some N -> c ∈ list_ascii_of_string text ->
  c = "-"%char \/ is_digit c = true.
Proof.
  intros (neg & d & ds & -> & HF)%int_value_inv Hc.
  apply elem_of_app in Hc as [Hc|Hc].
  - destruct neg; [|now apply elem_of_nil in Hc].
    left. now apply list_elem_of_singleton in Hc.
  - right. eapply Forall_forall in HF; eauto.
Qed.

Lemma matches_Group name r (s : chars) :
  matches (Group name r) s
  = (fun x => (x.1, (name, take x.1 s) :: x.2)) <$> matches r s.
Proof. reflexivity. Qed.

(** What the tail of the second pattern finds first on an integer text
    that runs up to a non-digit. *)
Lemma second_tail_head text N (r : chars) :
  int_value text = Some N ->
  match r with c :: _ => is_digit c = false | [] => True end ->
  head (matches SECOND_LINE_TAIL
          (list_ascii_of_string "t=" ++ list_ascii_of_string text ++ r))
  = Some (2 + String.length text,
          [("temperature", list_ascii_of_string text)]).
Proof.
  intros HN Hr. unfold SECOND_LINE_TAIL.
  rewrite matches_seq_Lit_app, head_fmap, matches_Group, head_fmap.
  pose proof (matches_signed_digits_head text N r HN Hr) as Hh.
  unfold captures, chars in *. rewrite Hh. cbn [fmap option_fmap option_map fst snd].
  rewrite <- (chars_length text), take_app_length. reflexivity.
Qed.

Lemma second_pattern_last_number (a text rest : string) (N : Z) :
  newline ∉ list_ascii_of_string a ->
  int_value text = Some N ->
  starts_with_digit rest = false ->
  re_match SECOND_LINE_PATTERN rest = None ->
  exists m,
    re_match SECOND_LINE_PATTERN (a +:+ "t=" +:+ text +:+ rest) = Some m
    /\ group m "temperature" = Some text
    /\ m_end m = String.length a + 2 + String.length text.
Proof.
  intros Ha HN Hrest Hnone.
  change SECOND_LINE_PATTERN with (Seq (Star AnyChar) SECOND_LINE_TAIL) in *.
  apply re_match_None in Hnone. apply starts_with_digit_chars in Hrest.
  set (ca := list_ascii_of_string a).
  set (ct := list_ascii_of_string text).
  set (cr := list_ascii_of_string rest) in *.
  assert (Hline : list_ascii_of_string (a +:+ "t=" +:+ text +:+ rest)
                  = ca ++ "t"%char :: "="%char :: ct ++ cr).
  { now rewrite !chars_of_append. }
  assert (Hpass : matches (Seq (Star AnyChar) SECOND_LINE_TAIL)
                    ("="%char :: ct ++ cr) = []).
  { change ("="%char :: ct ++ cr) with (("="%char :: ct) ++ cr).
    rewrite matches_star_seq_pass, Hnone; [reflexivity| |].
    - constructor; [reflexivity|]. apply Forall_forall. intros c Hc.
      destruct (int_text_chars _ _ _ HN Hc) as [->|Hd]; [reflexivity|].
      apply is_dot_spec. intros ->. discriminate Hd.
    - intros n Hn. destruct (drop_inside _ cr n Hn) as (c & l & -> & Hc).
      apply matches_seq_Lit_mismatch.
      apply elem_of_cons in Hc as [->|Hc]; [discriminate|].
      destruct (int_text_chars _ _ _ HN Hc) as [->|Hd]; [discriminate|].
      intros ->. discriminate Hd. }
  destruct (matches_star_seq_app SECOND_LINE_TAIL ca
              ("t"%char :: "="%char :: ct ++ cr) (newline_free_dots _ Ha))
    as [others Ho].
  rewrite (matches_star_seq_cons AnyChar _ "t"%char) in Ho by reflexivity.
  rewrite Hpass in Ho. cbn [fmap list_fmap app] in Ho.
  eexists. split.
  - apply re_match_Some. rewrite Hline, Ho, head_app, !head_fmap.
    pose proof (second_tail_head text N cr HN Hrest) as Hh.
    change (list_ascii_of_string "t=" ++ list_ascii_of_string text ++ cr)
      with ("t"%char :: "="%char :: ct ++ cr) in Hh.
    unfold captures, chars in *. rewrite Hh. reflexivity.
  - split.
    + unfold group. cbn. unfold ct. now rewrite string_of_list_ascii_of_string.
    + cbn. unfold ca. rewrite chars_length. lia.
Qed.

(** X7.  The greedy [.*] makes the second pattern read the last [t=]
    number of a line, whole: when the number is not followed by a digit
    and what follows does not itself match, group [temperature] is that
    number. *)
Theorem second_line_takes_last_number (a text rest : string) (N : Z) :
  newline ∉ list_ascii_of_string a ->
  int_value text = Some N ->
  starts_with_digit rest = false ->
  re_match SECOND_LINE_PATTERN rest = None ->
  exists m,
    re_match SECOND_LINE_PATTERN (a +:+ "t=" +:+ text +:+ rest) = Some m
    /\ group m "temperature" = Some text
    /\ m_end m = String.length a + 2 + String.length text.
Proof. exact (second_pattern_last_number a text rest N). Qed.


Lemma second_line_takes_last_number_witness :
  exists m,
    re_match SECOND_LINE_PATTERN "t=1 72 01 4b 46 t=-2062 C" = Some m
    /\ group m "temperature" = Some "-2062".
Proof.
  destruct (second_line_takes_last_number "t=1 72 01 4b 46 " "-2062" " C" (-2062))
    as (m & Hm & Hg & _).
  - apply (bool_decide_unpack _). vm_compute. reflexivity.
  - vm_compute. reflexivity.
  - vm_compute. reflexivity.
  - vm_compute. reflexivity.
  - exists m. split; [exact Hm|exact Hg].
Defined.

Lemma string_of_chars_app (l1 l2 : list ascii) :
  string_of_list_ascii (l1 ++ l2)
  = string_of_list_ascii l1 +:+ string_of_list_ascii l2.
Proof.
  induction l1 as [|c l1 IH]; [reflexivity|].
  cbn [app string_of_list_ascii]. rewrite IH. reflexivity.
Qed.

Lemma string_of_chars_length (l : list ascii) :
  String.length (string_of_list_ascii l) = length l.
Proof. now rewrite <- chars_length, list_ascii_of_string_of_list_ascii. Qed.

Lemma dots_newline_free (l : list ascii) :
  Forall (fun c => is_dot c = true) l ->
  newline ∉ list_ascii_of_string (string_of_list_ascii l).
Proof.
  rewrite list_ascii_of_string_of_list_ascii. intros HF Hin.
  eapply Forall_forall in HF; [|exact Hin]. now apply is_dot_spec in HF.
Qed.

Lemma matches_seq_Lit_elim t G (s : chars) x :
  x ∈ matches (Seq (Lit t) G) s ->
  exists u y,
    s = list_ascii_of_string t ++ u
    /\ y ∈ matches G u
    /\ x = (String.length t + y.1, y.2 ++ []).
Proof.
  intros Hx.
  assert (Hs : exists u, s = list_ascii_of_string t ++ u).
  { cbn [matches] in Hx.
    apply list_elem_of_bind in Hx as [a [_ Ha]].
    eapply matches_Lit_inv, Ha. }
  destruct Hs as [u ->]. rewrite matches_seq_Lit_app in Hx.
  apply list_elem_of_fmap_1 in Hx as [y [-> Hy]]. now exists u, y.
Qed.

(** A match never runs past the end of the text. *)
Lemma matches_bound r : forall (s : chars) x,
  x ∈ matches r s -> x.1 <= length s.
Proof.
  induction r as [|cs|cs|r IH|r1 IH1 r2 IH2|r1 IH1 r2 IH2|name r IH];
    intros s x; cbn [matches].
  - intros ->%list_elem_of_singleton. simpl. lia.
  - destruct s as [|c s]; [now intros ?%elem_of_nil|].
    destruct (in_charset cs c); [|now intros ?%elem_of_nil].
    intros ->%list_elem_of_singleton. simpl. lia.
  - intros [n [-> Hn]]%list_elem_of_fmap_1.
    apply star_lengths_elem in Hn as [Hn _]. rewrite length_take in Hn.
    simpl. lia.
  - intros [Hx | ->%list_elem_of_singleton]%elem_of_app; [now apply IH|].
    simpl. lia.
  - intros [a [[b [-> Hb]]%list_elem_of_fmap_1 Ha]]%list_elem_of_bind.
    apply IH1 in Ha. apply IH2 in Hb. rewrite length_drop in Hb.
    unfold captures, chars in *. simpl. lia.
  - intros [Hx|Hx]%elem_of_app; auto.
  - intros [a [-> Ha]]%list_elem_of_fmap_1. simpl. now apply IH.
Qed.

Lemma second_pattern_shape line m :
  re_match SECOND_LINE_PATTERN line = Some m ->
  exists (a text rest : string) (N : Z),
    line = a +:+ "t=" +:+ text +:+ rest
    /\ (newline ∉ list_ascii_of_string a)
    /\ group m "temperature" = Some text
    /\ int_value text = Some N
    /\ m_end m = String.length a + 2 + String.length text.
Proof.
  intros Hm%re_match_Some_inv. apply head_Some_elem_of in Hm.
  change SECOND_LINE_PATTERN with (Seq (Star AnyChar) SECOND_LINE_TAIL) in Hm.
  apply matches_star_seq_elim in Hm as (n & x & Hy & Hx & Hlen & Hdots).
  unfold SECOND_LINE_TAIL in Hx.
  apply matches_seq_Lit_elim in Hx as (u & y & Hs & Hy' & ->).
  rewrite matches_Group in Hy'.
  apply list_elem_of_fmap_1 in Hy' as [w [-> Hw]].
  pose proof (matches_bound _ _ _ Hw) as Hw1.
  apply matches_signed_digits in Hw as [Hw2 (neg & k & _ & Hint & _)].
  unfold captures, chars in *.
  cbn [fst snd] in Hy. rewrite Hw2 in Hy. cbn [app] in Hy.
  injection Hy as Hend Hgroups.
  exists (string_of_list_ascii (take n (list_ascii_of_string line))),
    (string_of_list_ascii (take w.1 u)), (string_of_list_ascii (drop w.1 u)),
    (if neg then - k else k)%Z.
  split; [|split; [|split; [|split]]].
  - rewrite <- (string_of_list_ascii_of_string line) at 1.
    rewrite <- (take_drop n (list_ascii_of_string line)) at 1.
    rewrite Hs. rewrite <- (take_drop w.1 u) at 1.
    rewrite !string_of_chars_app. reflexivity.
  - now apply dots_newline_free.
  - unfold group. rewrite Hgroups. reflexivity.
  - exact Hint.
  - rewrite Hend, !string_of_chars_length, Hlen, length_take. lia.
Qed.

(** X6.  A match of the second pattern splits the line: text without a
    line feed, [t=], and the integer text that group [temperature] holds,
    where the match ends. *)
Theorem second_line_match_shape line m :
  re_match SECOND_LINE_PATTERN line = Some m ->
  exists (a text rest : string) (N : Z),
    line = a +:+ "t=" +:+ text +:+ rest
    /\ (newline ∉ list_ascii_of_string a)
    /\ group m "temperature" = Some text
    /\ int_value text = Some N
    /\ m_end m = String.length a + 2 + String.length text.
Proof. exact (second_pattern_shape line m). Qed.


Lemma star_lengths_zero cs (s : chars) : 0 ∈ star_lengths cs s.
Proof.
  destruct s as [|c s]; simpl; [left|].
  destruct (in_charset cs c); [|left].
  apply elem_of_app. right. left.
Qed.

Lemma re_match_is_Some pattern line x :
  x ∈ matches pattern (list_ascii_of_string line) ->
  is_Some (re_match pattern line).
Proof.
  unfold re_match. destruct (matches _ _) as [|y l]; [now intros ?%elem_of_nil|].
  intros _. simpl. eauto.
Qed.

Lemma matches_of_prefix T (s : chars) k :
  matches T (take k s) <> [] -> exists x, x ∈ matches T s.
Proof.
  rewrite matches_take. destruct (matches T s) as [|x l]; [now intros []|].
  intros _. exists x. left.
Qed.

Lemma digit_int_value sign d :
  sign = "" \/ sign = "-" -> is_digit d = true ->
  exists N, int_value (sign +:+ String d "") = Some N.
Proof.
  intros [-> | ->] Hd;
    destruct d as [[] [] [] [] [] [] [] []]; try discriminate Hd;
    vm_compute; eauto.
Qed.

(** X5.  The second pattern matches a line exactly when, after some text
    without a line feed, the line reads [t=], an optional minus sign and
    a decimal digit. *)
Theorem second_line_matches_iff line :
  is_Some (re_match SECOND_LINE_PATTERN line)
  <-> exists (a sign : string) (d : ascii) (rest : string),
        line = a +:+ "t=" +:+ sign +:+ String d rest
        /\ (newline ∉ list_ascii_of_string a)
        /\ (sign = "" \/ sign = "-")
        /\ is_digit d = true.
Proof.
  split.
  - intros [m Hm].
    destruct (second_pattern_shape line m Hm)
      as (a & text & rest & N & -> & Ha & _ & HN & _).
    apply int_value_inv in HN as (neg & d & ds & Ht & HF).
    apply Forall_cons_1 in HF as [Hd _].
    exists a, (if neg then "-" else ""), d, (string_of_list_ascii ds +:+ rest).
    split; [|split; [exact Ha|split; [destruct neg; auto|exact Hd]]].
    rewrite <- (string_of_list_ascii_of_string text), Ht.
    destruct neg; reflexivity.
  - intros (a & sign & d & rest & -> & Ha & Hsign & Hd).
    destruct (digit_int_value sign d Hsign Hd) as [N HN].
    pose proof (second_tail_head _ N [] HN I) as Hh.
    destruct (matches_of_prefix SECOND_LINE_TAIL
                (list_ascii_of_string ("t=" +:+ sign +:+ String d rest))
                (2 + String.length (sign +:+ String d ""))) as [x Hx].
    { replace (take _ _)
        with (list_ascii_of_string "t="
              ++ list_ascii_of_string (sign +:+ String d "") ++ []).
      - intros Hnil. rewrite Hnil in Hh. discriminate Hh.
      - rewrite !chars_of_append, app_nil_r, <- chars_length, chars_of_append.
        destruct Hsign as [-> | ->]; reflexivity. }
    change SECOND_LINE_PATTERN with (Seq (Star AnyChar) SECOND_LINE_TAIL).
    eapply re_match_is_Some. rewrite chars_of_append.
    apply matches_star_seq_intro; [now apply newline_free_dots|exact Hx].
Qed.

Lemma word_is_dot c : is_word c = true -> is_dot c = true.
Proof. destruct c as [[] [] [] [] [] [] [] []]; vm_compute; congruence. Qed.

Lemma word_not_colon c : is_word c = true -> c <> ":"%char.
Proof. intros Hc ->. discriminate Hc. Qed.

Lemma matches_word_pair w1 w2 (u : chars) :
  is_word w1 = true -> is_word w2 = true ->
  matches (Group "1" (Seq (Chr WordChar) (Chr WordChar))) (w1 :: w2 :: u)
  = [(2, [("1", [w1; w2])])].
Proof.
  intros H1 H2. rewrite matches_Group.
  change (matches (Seq (Chr WordChar) (Chr WordChar)) (w1 :: w2 :: u))
    with ((if is_word w1 then [(1, [])] else [])
          ≫= fun x : nat * captures =>
               (fun y : nat * captures => (x.1 + y.1, y.2 ++ x.2))
                 <$> matches (Chr WordChar) (drop x.1 (w1 :: w2 :: u))).
  rewrite H1, bind_singleton.
  change (matches (Chr WordChar) (drop (1, @nil (string * chars)).1 (w1 :: w2 :: u)))
    with (if is_word w2 then [(1, @nil (string * chars))] else []).
  rewrite H2. reflexivity.
Qed.

Lemma matches_word_pair_inv (s : chars) x :
  x ∈ matches (Group "1" (Seq (Chr WordChar) (Chr WordChar))) s ->
  exists w1 w2 u,
    s = w1 :: w2 :: u /\ is_word w1 = true /\ is_word w2 = true
    /\ x = (2, [("1", [w1; w2])]).
Proof.
  destruct s as [|w1 [|w2 u]].
  - cbn. now intros ?%elem_of_nil.
  - cbn [matches fmap list_fmap mbind list_bind in_charset].
    destruct (is_word w1); cbn; now intros ?%elem_of_nil.
  - destruct (is_word w1) eqn:H1; [destruct (is_word w2) eqn:H2|].
    + rewrite matches_word_pair by assumption.
      intros ->%list_elem_of_singleton. now exists w1, w2, u.
    + rewrite matches_Group.
      change (matches (Seq (Chr WordChar) (Chr WordChar)) (w1 :: w2 :: u))
        with ((if is_word w1 then [(1, [])] else [])
              ≫= fun x : nat * captures =>
                   (fun y : nat * captures => (x.1 + y.1, y.2 ++ x.2))
                     <$> matches (Chr WordChar) (drop x.1 (w1 :: w2 :: u))).
      rewrite H1, bind_singleton.
      change (matches (Chr WordChar) (drop (1, @nil (string * chars)).1 (w1 :: w2 :: u)))
        with (if is_word w2 then [(1, @nil (string * chars))] else []).
      rewrite H2. cbn. now intros ?%elem_of_nil.
    + rewrite matches_Group.
      change (matches (Seq (Chr WordChar) (Chr WordChar)) (w1 :: w2 :: u))
        with ((if is_word w1 then [(1, [])] else [])
              ≫= fun x : nat * captures =>
                   (fun y : nat * captures => (x.1 + y.1, y.2 ++ x.2))
                     <$> matches (Chr WordChar) (drop x.1 (w1 :: w2 :: u))).
      rewrite H1. cbn. now intros ?%elem_of_nil.
Qed.

Lemma matches_flag flag (r : chars) :
  flag = "YES" \/ flag = "NO" ->
  matches (Group "valid" (Alt (Lit "YES") (Lit "NO")))
    (list_ascii_of_string flag ++ r)
  = [(String.length flag, [("valid", list_ascii_of_string flag)])].
Proof. intros [-> | ->]; reflexivity. Qed.

Lemma matches_flag_inv (s : chars) x :
  x ∈ matches (Group "valid" (Alt (Lit "YES") (Lit "NO"))) s ->
  exists flag r,
    (flag = "YES" \/ flag = "NO")
    /\ s = list_ascii_of_string flag ++ r
    /\ x = (String.length flag, [("valid", list_ascii_of_string flag)]).
Proof.
  rewrite matches_Group.
  intros [y [-> Hy]]%list_elem_of_fmap_1. cbn [matches] in Hy.
  apply elem_of_app in Hy as [Hy|Hy].
  - pose proof (matches_Lit _ _ _ Hy) as ->.
    apply matches_Lit_inv in Hy as [r ->].
    exists "YES", r. auto.
  - pose proof (matches_Lit _ _ _ Hy) as ->.
    apply matches_Lit_inv in Hy as [r ->].
    exists "NO", r. auto.
Qed.

(** What the tail of the first pattern finds on a checksum report. *)
Lemma first_tail_matches w1 w2 flag (r : chars) :
  is_word w1 = true -> is_word w2 = true ->
  flag = "YES" \/ flag = "NO" ->
  matches FIRST_LINE_TAIL
    (list_ascii_of_string ": crc=" ++ w1 :: w2
       :: list_ascii_of_string " " ++ list_ascii_of_string flag ++ r)
  = [(9 + String.length flag,
      [("valid", list_ascii_of_string flag); ("1", [w1; w2])])].
Proof.
  intros H1 H2 Hflag. unfold FIRST_LINE_TAIL.
  rewrite matches_seq_Lit_app.
  change (matches (Seq (Group "1" (Seq (Chr WordChar) (Chr WordChar)))
                     (Seq (Lit " ") (Group "valid" (Alt (Lit "YES") (Lit "NO")))))
            (w1 :: w2 :: list_ascii_of_string " " ++ list_ascii_of_string flag ++ r))
    with (matches (Group "1" (Seq (Chr WordChar) (Chr WordChar)))
            (w1 :: w2 :: list_ascii_of_string " " ++ list_ascii_of_string flag ++ r)
          ≫= fun x : nat * captures =>
               (fun y : nat * captures => (x.1 + y.1, y.2 ++ x.2))
                 <$> matches (Seq (Lit " ") (Group "valid" (Alt (Lit "YES") (Lit "NO"))))
                       (drop x.1 (w1 :: w2 :: list_ascii_of_string " "
                                    ++ list_ascii_of_string flag ++ r))).
  rewrite matches_word_pair by assumption. rewrite bind_singleton.
  cbn [fst snd drop]. rewrite drop_0, matches_seq_Lit_app, matches_flag by exact Hflag.
  reflexivity.
Qed.

Lemma first_pattern_last_flag (a : string) (w1 w2 : ascii)
    (flag rest : string) :
  newline ∉ list_ascii_of_string a ->
  is_word w1 = true -> is_word w2 = true ->
  flag = "YES" \/ flag = "NO" ->
  re_match FIRST_LINE_PATTERN rest = None ->
  exists m,
    re_match FIRST_LINE_PATTERN
      (a +:+ ": crc=" +:+ String w1 (String w2 " ") +:+ flag +:+ rest)
    = Some m
    /\ group m "valid" = Some flag
    /\ group m "1" = Some (String w1 (String w2 ""))
    /\ m_end m = String.length a + 9 + String.length flag.
Proof.
  intros Ha H1 H2 Hflag Hnone.
  change FIRST_LINE_PATTERN with (Seq (Star AnyChar) FIRST_LINE_TAIL) in *.
  apply re_match_None in Hnone.
  set (ca := list_ascii_of_string a).
  set (cf := list_ascii_of_string flag).
  set (cr := list_ascii_of_string rest) in *.
  set (p := list_ascii_of_string " crc=" ++ w1 :: w2 :: " "%char :: cf).
  assert (Hline : list_ascii_of_string
                    (a +:+ ": crc=" +:+ String w1 (String w2 " ") +:+ flag +:+ rest)
                  = ca ++ ":"%char :: p ++ cr).
  { rewrite !chars_of_append. unfold p, ca, cf, cr.
    cbn [list_ascii_of_string app]. rewrite <- ?app_assoc. reflexivity. }
  assert (Hp : Forall (fun c => is_word c = true \/ c = " "%char \/ c = "="%char) p).
  { unfold p. repeat (constructor; [auto; try (left; reflexivity)|]).
    unfold cf. destruct Hflag as [-> | ->];
      repeat (constructor; [left; reflexivity|]); constructor. }
  assert (Hpass : matches (Seq (Star AnyChar) FIRST_LINE_TAIL) (p ++ cr) = []).
  { rewrite matches_star_seq_pass, Hnone; [reflexivity| |].
    - eapply Forall_impl; [exact Hp|]. intros c [Hc|[->| ->]];
        [now apply word_is_dot|reflexivity|reflexivity].
    - intros n Hn. destruct (drop_inside _ cr n Hn) as (c & l & -> & Hc).
      apply matches_seq_Lit_mismatch.
      eapply Forall_forall in Hp; [|exact Hc].
      destruct Hp as [Hw|[->| ->]]; [now apply word_not_colon|discriminate..]. }
  destruct (matches_star_seq_app FIRST_LINE_TAIL ca (":"%char :: p ++ cr)
              (newline_free_dots _ Ha)) as [others Ho].
  rewrite (matches_star_seq_cons AnyChar _ ":"%char) in Ho by reflexivity.
  rewrite Hpass in Ho. cbn [fmap list_fmap app] in Ho.
  pose proof (first_tail_matches w1 w2 flag cr H1 H2 Hflag) as Hh.
  change (list_ascii_of_string ": crc=" ++ w1 :: w2
            :: list_ascii_of_string " " ++ list_ascii_of_string flag ++ cr)
    with (":"%char :: p ++ cr) in Hh.
  unfold captures, chars in *. rewrite Hh in Ho.
  eexists. split.
  - apply re_match_Some. unfold captures, chars in *.
    rewrite Hline, Ho. reflexivity.
  - split; [|split].
    + unfold group. cbn. unfold cf. now rewrite string_of_list_ascii_of_string.
    + reflexivity.
    + cbn. unfold ca. rewrite chars_length. lia.
Qed.

(** X4.  The greedy [.*] makes the first pattern read the last checksum
    report of a line: when what follows a report does not itself match,
    the groups are those of that report. *)
Theorem first_line_takes_last_flag (a : string) (w1 w2 : ascii)
    (flag rest : string) :
  newline ∉ list_ascii_of_string a ->
  is_word w1 = true -> is_word w2 = true ->
  flag = "YES" \/ flag = "NO" ->
  re_match FIRST_LINE_PATTERN rest = None ->
  exists m,
    re_match FIRST_LINE_PATTERN
      (a +:+ ": crc=" +:+ String w1 (String w2 " ") +:+ flag +:+ rest)
    = Some m
    /\ group m "valid" = Some flag
    /\ group m "1" = Some (String w1 (String w2 ""))
    /\ m_end m = String.length a + 9 + String.length flag.
Proof. exact (first_pattern_last_flag a w1 w2 flag rest). Qed.


Lemma first_line_takes_last_flag_witness :
  exists m,
    re_match FIRST_LINE_PATTERN "x : crc=00 YES 72 01 4b : crc=57 NO" = Some m
    /\ group m "valid" = Some "NO".
Proof.
  destruct (first_line_takes_last_flag "x : crc=00 YES 72 01 4b "
              "5"%char "7"%char "NO" "")
    as (m & Hm & Hg & _).
  - apply (bool_decide_unpack _). vm_compute. reflexivity.
  - reflexivity.
  - reflexivity.
  - now right.
  - vm_compute. reflexivity.
  - exists m. split; [exact Hm|exact Hg].
Defined.

Lemma first_pattern_shape line m :
  re_match FIRST_LINE_PATTERN line = Some m ->
  exists (a : string) (w1 w2 : ascii) (flag rest : string),
    line = a +:+ ": crc=" +:+ String w1 (String w2 " ") +:+ flag +:+ rest
    /\ (newline ∉ list_ascii_of_string a)
    /\ is_word w1 = true /\ is_word w2 = true
    /\ (flag = "YES" \/ flag = "NO")
    /\ group m "valid" = Some flag
    /\ group m "1" = Some (String w1 (String w2 ""))
    /\ m_end m = String.length a + 9 + String.length flag.
Proof.
  intros Hm%re_match_Some_inv. apply head_Some_elem_of in Hm.
  change FIRST_LINE_PATTERN with (Seq (Star AnyChar) FIRST_LINE_TAIL) in Hm.
  apply matches_star_seq_elim in Hm as (n & x & Hy & Hx & Hlen & Hdots).
  unfold FIRST_LINE_TAIL in Hx.
  apply matches_seq_Lit_elim in Hx as (u & y & Hs & Hy' & ->).
  change (matches (Seq (Group "1" (Seq (Chr WordChar) (Chr WordChar)))
                     (Seq (Lit " ") (Group "valid" (Alt (Lit "YES") (Lit "NO"))))) u)
    with (matches (Group "1" (Seq (Chr WordChar) (Chr WordChar))) u
          ≫= fun x : nat * captures =>
               (fun y : nat * captures => (x.1 + y.1, y.2 ++ x.2))
                 <$> matches (Seq (Lit " ") (Group "valid" (Alt (Lit "YES") (Lit "NO"))))
                       (drop x.1 u)) in Hy'.
  apply list_elem_of_bind in Hy' as [g1 [[z [-> Hz]]%list_elem_of_fmap_1 Hg1]].
  apply matches_word_pair_inv in Hg1 as (w1 & w2 & u2 & -> & H1 & H2 & ->).
  cbn [fst snd drop] in Hz. rewrite drop_0 in Hz.
  apply matches_seq_Lit_elim in Hz as (u3 & g2 & -> & Hg2 & ->).
  apply matches_flag_inv in Hg2 as (flag & r & Hflag & -> & ->).
  cbn [fst snd app] in Hy. injection Hy as Hend Hgroups.
  exists (string_of_list_ascii (take n (list_ascii_of_string line))),
    w1, w2, flag, (string_of_list_ascii r).
  split; [|split; [|split; [|split; [|split; [|split; [|split]]]]]]; auto.
  - rewrite <- (string_of_list_ascii_of_string line) at 1.
    rewrite <- (take_drop n (list_ascii_of_string line)) at 1.
    rewrite Hs, !string_of_chars_app, string_of_list_ascii_of_string.
    cbn [app list_ascii_of_string string_of_list_ascii].
    rewrite string_of_chars_app, string_of_list_ascii_of_string.
    reflexivity.
  - now apply dots_newline_free.
  - unfold group. rewrite Hgroups. cbn.
    now rewrite string_of_list_ascii_of_string.
  - unfold group. rewrite Hgroups. reflexivity.
  - rewrite Hend, string_of_chars_length, Hlen. cbn. lia.
Qed.

(** X3.  A match of the first pattern splits the line: text without a
    line feed, [: crc=], the two word characters that group 1 holds, a
    space, and the flag that group [valid] holds, which is [YES] or [NO]
    and where the match ends. *)
Theorem first_line_match_shape line m :
  re_match FIRST_LINE_PATTERN line = Some m ->
  exists (a : string) (w1 w2 : ascii) (flag rest : string),
    line = a +:+ ": crc=" +:+ String w1 (String w2 " ") +:+ flag +:+ rest
    /\ (newline ∉ list_ascii_of_string a)
    /\ is_word w1 = true /\ is_word w2 = true
    /\ (flag = "YES" \/ flag = "NO")
    /\ group m "valid" = Some flag
    /\ group m "1" = Some (String w1 (String w2 ""))
    /\ m_end m = String.length a + 9 + String.length flag.
Proof. exact (first_pattern_shape line m). Qed.


(** X2.  The first pattern matches a line exactly when, after some text
    without a line feed, the line reads [: crc=], two word characters, a
    space and [YES] or [NO]. *)
Theorem first_line_matches_iff line :
  is_Some (re_match FIRST_LINE_PATTERN line)
  <-> exists (a : string) (w1 w2 : ascii) (flag rest : string),
        line = a +:+ ": crc=" +:+ String w1 (String w2 " ") +:+ flag +:+ rest
        /\ (newline ∉ list_ascii_of_string a)
        /\ is_word w1 = true /\ is_word w2 = true
        /\ (flag = "YES" \/ flag = "NO").
Proof.
  split.
  - intros [m Hm].
    destruct (first_pattern_shape line m Hm)
      as (a & w1 & w2 & flag & rest & Hl & Ha & H1 & H2 & Hf & _).
    now exists a, w1, w2, flag, rest.
  - intros (a & w1 & w2 & flag & rest & -> & Ha & H1 & H2 & Hflag).
    change FIRST_LINE_PATTERN with (Seq (Star AnyChar) FIRST_LINE_TAIL).
    eapply re_match_is_Some. rewrite chars_of_append.
    apply matches_star_seq_intro; [now apply newline_free_dots|].
    rewrite !chars_of_append.
    change (list_ascii_of_string (String w1 (String w2 " ")))
      with ([w1; w2] ++ list_ascii_of_string " ").
    rewrite <- !app_assoc. cbn [app].
    change (" "%char :: list_ascii_of_string flag ++ list_ascii_of_string rest)
      with (list_ascii_of_string " " ++ list_ascii_of_string flag
            ++ list_ascii_of_string rest).
    rewrite first_tail_matches by assumption. left.
Qed.

Lemma split_lines_cons c rest :
  split_lines (String c rest)
  = if Ascii.eqb c newline then "" :: split_lines rest
    else match split_lines rest with
         | line :: lines => String c line :: lines
         | [] => [String c ""]
         end.
Proof. reflexivity. Qed.

Lemma split_lines_nonempty s : split_lines s <> [].
Proof.
  induction s as [|c s IH]; [discriminate|].
  rewrite split_lines_cons. destruct (Ascii.eqb c newline); [discriminate|].
  destruct (split_lines s); [contradiction|discriminate].
Qed.

(** X1.  [content.split("\n")] loses nothing: joining the pieces with line
    feeds gives the content back, there is one piece more than there are
    line feeds, and no piece holds a line feed. *)
Theorem split_lines_round_trip (content : string) :
  join_lines (split_lines content) = content
  /\ length (split_lines content) = S (count_newlines content)
  /\ Forall (fun line => newline ∉ list_ascii_of_string line)
       (split_lines content).
Proof.
  induction content as [|c s (IHj & IHl & IHf)].
  - repeat split. repeat constructor. apply not_elem_of_nil.
  - rewrite split_lines_cons. unfold count_newlines in *.
    cbn [list_ascii_of_string]. rewrite filter_cons.
    destruct (Ascii.eqb_spec c newline) as [->|Hc].
    + rewrite decide_True by reflexivity. split; [|split].
      * unfold join_lines in *. cbn [String.concat].
        pose proof (split_lines_nonempty s) as Hne.
        destruct (split_lines s) as [|l ls]; [contradiction|].
        cbn [String.concat] in *. rewrite IHj. reflexivity.
      * cbn [length]. now rewrite IHl.
      * constructor; [apply not_elem_of_nil|exact IHf].
    + rewrite decide_False by exact Hc.
      pose proof (split_lines_nonempty s) as Hne.
      destruct (split_lines s) as [|l ls]; [contradiction|].
      apply Forall_cons_1 in IHf as [Hl Hls]. split; [|split].
      * unfold join_lines in *. rewrite <- IHj.
        destruct ls; reflexivity.
      * exact IHl.
      * constructor; [|exact Hls]. cbn [list_ascii_of_string].
        apply not_elem_of_cons. split; [congruence|exact Hl].
Qed.

Lemma split_lines_line (a b : string) :
  newline ∉ list_ascii_of_string a ->
  split_lines (a +:+ String newline b) = a :: split_lines b.
Proof.
  induction a as [|c a IH]; intros Ha.
  - reflexivity.
  - cbn [list_ascii_of_string] in Ha.
    apply not_elem_of_cons in Ha as [Hc Ha].
    change (String c a +:+ String newline b)
      with (String c (a +:+ String newline b)).
    rewrite split_lines_cons, (IH Ha).
    destruct (Ascii.eqb_spec c newline); [congruence|reflexivity].
Qed.

(** X8.  For both patterns, text without a line feed put in front of a
    line that matches leaves the groups as they are and moves the end of
    the match by the length of that text. *)
Theorem text_in_front_keeps_match pattern (front line : string) m :
  pattern = FIRST_LINE_PATTERN \/ pattern = SECOND_LINE_PATTERN ->
  newline ∉ list_ascii_of_string front ->
  re_match pattern line = Some m ->
  re_match pattern (front +:+ line)
  = Some (mkMatch (String.length front + m_end m) (m_groups m)).
Proof.
  intros [-> | ->] Hf Hm.
  - now apply (text_in_front_keeps_groups FIRST_LINE_TAIL).
  - now apply (text_in_front_keeps_groups SECOND_LINE_TAIL).
Qed.

Lemma text_in_front_keeps_match_witness :
  (fun m => (m_end m, group m "temperature"))
    <$> re_match SECOND_LINE_PATTERN ("# note t= " +:+ "72 01 t=21562")
  = Some (23, Some "21562").
Proof.
  rewrite (text_in_front_keeps_match SECOND_LINE_PATTERN "# note t= "
             "72 01 t=21562"
             (mkMatch 13 [("temperature", list_ascii_of_string "21562")])).
  - reflexivity.
  - now right.
  - apply (bool_decide_unpack _). vm_compute. reflexivity.
  - vm_compute. reflexivity.
Defined.

Lemma word_not_newline c : is_word c = true -> c <> newline.
Proof. intros Hc ->. discriminate Hc. Qed.

Lemma newline_free_append (s t : string) :
  newline ∉ list_ascii_of_string s ->
  newline ∉ list_ascii_of_string t ->
  newline ∉ list_ascii_of_string (s +:+ t).
Proof.
  intros Hs Ht. rewrite chars_of_append.
  intros [?|?]%elem_of_app; contradiction.
Qed.

Lemma append_empty (s : string) : s +:+ "" = s.
Proof.
  induction s as [|c s IH]; [reflexivity|].
  change (String c s +:+ "") with (String c (s +:+ "")). now rewrite IH.
Qed.

Lemma append_assoc (s t u : string) : (s +:+ t) +:+ u = s +:+ t +:+ u.
Proof.
  induction s as [|c s IH]; [reflexivity|].
  change (String c s +:+ ?x) with (String c (s +:+ x)).
  change (String c (s +:+ t) +:+ u) with (String c ((s +:+ t) +:+ u)).
  now rewrite IH.
Qed.

(** X9.  A report in the kernel's format reads back: with a first line
    ending in [: crc=ww YES] and a second line ending in [t=<N>], the
    reader returns [N / 1000.0], whatever precedes on either line and
    whatever lines follow. *)
Theorem kernel_report_reads_back w sensor_id
    (a1 : string) (w1 w2 : ascii) (a2 text more : string) (N : Z) :
  files w (opened w) (sensor_path sensor_id)
  = Holds ((a1 +:+ ": crc=" +:+ String w1 (String w2 " ") +:+ "YES")
           +:+ String newline ((a2 +:+ "t=" +:+ text) +:+ String newline more)) ->
  newline ∉ list_ascii_of_string a1 ->
  newline ∉ list_ascii_of_string a2 ->
  is_word w1 = true -> is_word w2 = true ->
  int_value text = Some N ->
  exists r,
    (read_ds18s20_temperature sensor_id w).1 = Return r
    /\ float_eq r (millidegrees_to_celsius N) = true
    /\ (N <> 0%Z -> r = millidegrees_to_celsius N).
Proof.
  intros Hf Ha1 Ha2 H1 H2 HN.
  set (l1 := a1 +:+ ": crc=" +:+ String w1 (String w2 " ") +:+ "YES") in *.
  set (l2 := a2 +:+ "t=" +:+ text) in *.
  destruct (first_pattern_last_flag a1 w1 w2 "YES" "" Ha1 H1 H2
              (or_introl eq_refl) eq_refl) as (m1 & Hm1 & Hv & _).
  destruct (second_pattern_last_number a2 text "" N Ha2 HN eq_refl eq_refl)
    as (m2 & Hm2 & Hg & _).
  assert (E1 : a1 +:+ ": crc=" +:+ String w1 (String w2 " ") +:+ "YES" +:+ "" = l1).
  { unfold l1. now rewrite append_empty. }
  assert (E2 : a2 +:+ "t=" +:+ text +:+ "" = l2).
  { unfold l2. now rewrite append_empty. }
  rewrite E1 in Hm1. rewrite E2 in Hm2.
  assert (Hn1 : newline ∉ list_ascii_of_string l1).
  { unfold l1. repeat apply newline_free_append; try assumption.
    - apply (bool_decide_unpack _). vm_compute. reflexivity.
    - cbn [list_ascii_of_string].
      intros [E|[E|E%list_elem_of_singleton]%elem_of_cons]%elem_of_cons;
        [rewrite <- E in H1|rewrite <- E in H2|]; discriminate.
    - apply (bool_decide_unpack _). vm_compute. reflexivity. }
  assert (Hn2 : newline ∉ list_ascii_of_string l2).
  { unfold l2. repeat apply newline_free_append; try assumption.
    - apply (bool_decide_unpack _). vm_compute. reflexivity.
    - intros Hin. destruct (int_text_chars _ _ _ HN Hin); discriminate. }
  assert (Hs : split_lines (l1 +:+ String newline (l2 +:+ String newline more))
               = l1 :: l2 :: split_lines more).
  { now rewrite !split_lines_line. }
  destruct (temperature_group_is_integer_text l2 m2 Hm2)
    as (text' & neg & n & Hg' & Hn & Hint & Hfl).
  rewrite Hg in Hg'. injection Hg' as <-.
  rewrite HN in Hint. injection Hint as ->.
  destruct (signed_quotient neg n Hn) as [Heq Hexact].
  eexists. split; [|split; [exact Heq|exact Hexact]].
  rewrite (read_holds _ _ _ Hf), (report_temperature_two_lines _ _ _ _ Hs), Hm1, Hm2.
  rewrite decide_True by exact Hv.
  rewrite Hg, Hfl, truediv_1000. reflexivity.
Qed.

Lemma kernel_report_reads_back_witness :
  (read_ds18s20_temperature "28-000001" (sample_world ∅)).1
  = Return literal_21_562.
Proof.
  destruct (kernel_report_reads_back (sample_world ∅) "28-000001"
              "72 01 4b 46 7f ff 0e 10 57 " "5"%char "7"%char
              "72 01 4b 46 7f ff 0e 10 57 " "21562" "" 21562)
    as (r & Hr & _ & Hexact).
  - vm_compute. reflexivity.
  - apply (bool_decide_unpack _). vm_compute. reflexivity.
  - apply (bool_decide_unpack _). vm_compute. reflexivity.
  - reflexivity.
  - reflexivity.
  - vm_compute. reflexivity.
  - rewrite Hr, Hexact by discriminate. vm_compute. reflexivity.
Defined.

Lemma report_temperature_not_nan content v :
  report_temperature content = Return v -> v <> nan.
Proof.
  unfold report_temperature.
  destruct (take 2 (split_lines content)) as [|l1 [|l2 [|l3 ls]]]; try discriminate.
  destruct (re_match FIRST_LINE_PATTERN l1) as [m1|]; [|discriminate].
  destruct (re_match SECOND_LINE_PATTERN l2) as [m2|] eqn:H2; [|discriminate].
  destruct (decide _); [|discriminate].
  destruct (temperature_group_is_integer_text l2 m2 H2)
    as (text & neg & n & Hg & _ & _ & Hfl).
  rewrite Hg, Hfl, truediv_1000. intros [= <-].
  change (binary_round prec emax false 1000 0) with (of_Z 1000).
  rewrite of_Z_1000.
  apply SFdiv_by_finite_not_nan, binary_normalize_not_nan.
Qed.

(** X11.  The reader returns not-a-number exactly when the function under
    the decorator raises: a report that parses never yields
    not-a-number. *)
Theorem reader_nan_iff_failure w sensor_id :
  (read_ds18s20_temperature sensor_id w).1 = Return nan
  <-> exists e, (read_ds18s20_temperature_undecorated sensor_id w).1 = Raise e.
Proof.
  unfold read_ds18s20_temperature, trap_nan.
  unfold read_ds18s20_temperature_undecorated, bind, open_and_read, lift, log,
    emit, ret.
  destruct (files w (opened w) (sensor_path sensor_id)) as [e|e|content];
    cbn [fst]; [split; eauto..|].
  destruct (report_temperature content) as [v|e] eqn:Hr; cbn [fst].
  - split.
    + intros [= ->]. now apply report_temperature_not_nan in Hr.
    + intros [e [=]].
  - split; eauto.
Qed.

(** X12.  One call of the reader opens the sensor's file once, logs once
    exactly when the undecorated function returns, and does nothing
    else: the environment, the clock count and the logging level are as
    before. *)
Theorem reader_footprint w sensor_id :
  let w' := (read_ds18s20_temperature sensor_id w).2 in
  environ w' = environ w
  /\ opened w' = S (opened w)
  /\ asked w' = asked w
  /\ root_level w' = root_level w
  /\ observations_of (read_ds18s20_temperature sensor_id) w
     = (OpenFile (sensor_path sensor_id), environ w)
       :: match (read_ds18s20_temperature_undecorated sensor_id w).1 with
          | Return v =>
              [(LogCall INFO "Read temperature for sensor %s: %.2f C"
                  [AStr sensor_id; AFloat v], environ w)]
          | Raise _ => []
          end.
Proof.
  unfold observations_of, read_ds18s20_temperature, trap_nan,
    read_ds18s20_temperature_undecorated, bind, open_and_read, lift, log,
    emit, ret, record.
  destruct (files w (opened w) (sensor_path sensor_id)) as [e|e|content];
    cbn [fst snd environ opened asked root_level trace].
  1,2: repeat split; apply drop_app_length.
  destruct (report_temperature content) as [v|e];
    cbn [fst snd environ opened asked root_level trace];
    repeat split; rewrite <- ?app_assoc; apply drop_app_length.
Qed.

Section SignFacts.

Lemma binary_round_aux_opp sx mx ex lx :
  binary_round_aux prec emax (negb sx) mx ex lx
  = SFopp (binary_round_aux prec emax sx mx ex lx).
Proof.
  unfold binary_round_aux.
  destruct (shr_fexp prec emax mx ex lx) as [mrs' e'].
  destruct (shr_fexp prec emax _ e' loc_Exact) as [mrs'' e''].
  destruct (shr_m mrs''); [reflexivity| |reflexivity].
  destruct (e'' <=? emax - prec)%Z; reflexivity.
Qed.

Lemma binary_normalize_opp n :
  (0 <= n)%Z ->
  binary_normalize prec emax (- n) 0 true
  = SFopp (binary_normalize prec emax n 0 false).
Proof.
  intros Hn. destruct n as [|p|p]; [reflexivity| |lia].
  change (binary_round prec emax true p 0
          = SFopp (binary_round prec emax false p 0)).
  unfold binary_round.
  destruct (shl_align _ _ _). apply (binary_round_aux_opp false).
Qed.

Lemma SFdiv_opp x sy my ey :
  SFdiv prec emax (SFopp x) (S754_finite sy my ey)
  = SFopp (SFdiv prec emax x (S754_finite sy my ey)).
Proof.
  destruct x as [sx|sx| |sx mx ex]; cbn [SFopp SFdiv];
    rewrite <- ?negb_xorb_l; try reflexivity.
  destruct (SFdiv_core_binary _ _ _ _ _ _) as [[mz ez] lz].
  apply binary_round_aux_opp.
Qed.

End SignFacts.

Lemma decimal_shape (ds : chars) n :
  decimal ds = Some n ->
  (0 <= n)%Z
  /\ exists d l, ds = d :: l /\ Forall (fun c => is_digit c = true) (d :: l).
Proof.
  destruct ds as [|d l]; [discriminate|]. intros Hn.
  pose proof (digits_value_inv _ _ _ Hn) as HF.
  destruct (digits_value_Some 0 (d :: l) ltac:(lia) HF) as (v & Hv & Hv0).
  unfold decimal in Hn. rewrite Hn in Hv. injection Hv as ->.
  split; [exact Hv0|]. now exists d, l.
Qed.

Lemma int_value_digits digits n :
  decimal (list_ascii_of_string digits) = Some n ->
  int_value digits = Some n
  /\ int_value ("-" +:+ digits) = Some (- n)%Z
  /\ py_float (Some digits) = Return (binary_normalize prec emax n 0 false)
  /\ py_float (Some ("-" +:+ digits))
     = Return (binary_normalize prec emax (- n) 0 true).
Proof.
  intros Hn. destruct (decimal_shape _ _ Hn) as (_ & d & l & Hd & HF).
  apply Forall_cons_1 in HF as [Hdig _].
  unfold int_value, py_float.
  change (list_ascii_of_string ("-" +:+ digits))
    with ("-"%char :: list_ascii_of_string digits).
  rewrite Hd in Hn |- *.
  destruct d as [[] [] [] [] [] [] [] []]; try discriminate Hdig;
    cbv beta iota; rewrite Hn; repeat split; reflexivity.
Qed.

(** X10.  A minus sign in front of the digits negates the reading.  Take
    a second line whose [t=<digits>] is the number the pattern reads (the
    digits are not followed by another digit, and what follows does not
    itself match the pattern): if the report parses to [q], the report
    with [t=-<digits>] in place of [t=<digits>] parses to [-q]. *)
Theorem minus_sign_negates_reading (content content' : string)
    (l1 a digits rest : string) (ls ls' : list string) (n : Z) (q : float) :
  split_lines content = l1 :: (a +:+ "t=" +:+ digits +:+ rest) :: ls ->
  split_lines content'
  = l1 :: (a +:+ "t=" +:+ ("-" +:+ digits) +:+ rest) :: ls' ->
  newline ∉ list_ascii_of_string a ->
  decimal (list_ascii_of_string digits) = Some n ->
  starts_with_digit rest = false ->
  re_match SECOND_LINE_PATTERN rest = None ->
  report_temperature content = Return q ->
  report_temperature content' = Return (SFopp q).
Proof.
  intros Hs Hs' Ha Hn Hrest Hnone.
  destruct (int_value_digits digits n Hn) as (Hi & Hi' & Hf & Hf').
  destruct (decimal_shape _ _ Hn) as (Hn0 & _).
  destruct (second_pattern_last_number a digits rest n Ha Hi Hrest Hnone)
    as (m2 & Hm2 & Hg2 & _).
  destruct (second_pattern_last_number a ("-" +:+ digits) rest (- n)
              Ha Hi' Hrest Hnone) as (m2' & Hm2' & Hg2' & _).
  rewrite (report_temperature_two_lines _ _ _ _ Hs),
    (report_temperature_two_lines _ _ _ _ Hs'), Hm2, Hm2'.
  destruct (re_match FIRST_LINE_PATTERN l1) as [m1|]; [|discriminate].
  destruct (decide _); [|discriminate].
  rewrite Hg2, Hg2', Hf, Hf', !truediv_1000. intros [= <-].
  rewrite binary_normalize_opp by exact Hn0.
  rewrite of_Z_1000. now rewrite SFdiv_opp.
Qed.

Lemma minus_sign_negates_reading_witness :
  report_temperature (report "0c : crc=aa YES" "0c t=-12")
  = Return (SFopp literal_0_012).
Proof.
  apply (minus_sign_negates_reading (report "0c : crc=aa YES" "0c t=12")
           (report "0c : crc=aa YES" "0c t=-12") "0c : crc=aa YES"
           "0c " "12" "" [""] [""] 12).
  - vm_compute. reflexivity.
  - vm_compute. reflexivity.
  - apply (bool_decide_unpack _). vm_compute. reflexivity.
  - vm_compute. reflexivity.
  - reflexivity.
  - vm_compute. reflexivity.
  - vm_compute. reflexivity.
Defined.

(** X13.  A larger verbosity count never selects a higher logging level;
    a count of zero or less selects what an absent count selects; the
    level is always warning, info or debug. *)
Theorem select_level_antitone (v v' : Z) :
  (v <= v')%Z ->
  (select_level (Some v') <= select_level (Some v))%Z
  /\ (v <= 0 -> select_level (Some v) = select_level None)%Z
  /\ (select_level (Some v) = WARN \/ select_level (Some v) = INFO
      \/ select_level (Some v) = DEBUG).
Proof.
  intros Hv. unfold select_level, WARN, INFO, DEBUG.
  destruct (Z.leb_spec v 0), (Z.leb_spec v' 0),
    (Z.eqb_spec v 1), (Z.eqb_spec v' 1); try lia; repeat split; auto; lia.
Qed.

Lemma select_level_antitone_witness :
  (select_level (Some 3) <= select_level (Some (-1)))%Z.
Proof. apply (select_level_antitone (-1) 3). lia. Defined.

Lemma reader_exact sensor_id w :
  exists w',
    read_ds18s20_temperature sensor_id w
    = (Return (reading (files w) (opened w) sensor_id), w')
    /\ advance w w'
         (reader_observations (files w) (environ w) (opened w) sensor_id) 1 0.
Proof.
  unfold read_ds18s20_temperature, trap_nan, read_ds18s20_temperature_undecorated,
    bind, open_and_read, lift, log, emit, ret, reading, reader_observations.
  destruct (files w (opened w) (sensor_path sensor_id)) as [e|e|content].
  1,2: eexists; split; [reflexivity|];
       split; simpl; rewrite ?Nat.add_0_r; auto; lia.
  destruct (report_temperature content) as [v|e];
    (eexists; split; [reflexivity|]);
    split; simpl; rewrite ?Nat.add_0_r, <- ?app_assoc; auto; lia.
Qed.

Lemma collect_exact timezone sensors : forall acc w,
  exists w',
    collect_time_series timezone sensors acc w
    = (Return (dict_update acc
                 (occurrences (files w) (clock w) timezone (opened w) (asked w)
                    sensors)), w')
    /\ advance w w'
         (collect_observations (files w) (environ w) (opened w) sensors)
         (length sensors) (length sensors).
Proof.
  induction sensors as [|s rest IH]; intros acc w.
  - exists w. split; [reflexivity|apply advance_refl].
  - destruct (reader_exact s w) as (w1 & Hr & Ha1).
    destruct (now_advance timezone w1) as (w2 & Hnow & Ha2).
    destruct (IH (dict_set s [(mkDatetime (clock w1 (asked w1)) timezone,
                               reading (files w) (opened w) s)] acc) w2)
      as (w3 & Hc & Ha3).
    pose proof (advance_trans _ _ _ _ _ _ _ _ _ Ha1 Ha2) as Ha12.
    exists w3. split.
    + simpl. unfold bind at 1. rewrite Hr. unfold bind at 1. rewrite Hnow, Hc.
      destruct Ha12, Ha1.
      rewrite adv_files0, adv_clock0, adv_opened0, adv_asked0.
      rewrite adv_clock1, adv_asked1.
      repeat f_equal; lia.
    + pose proof (advance_trans _ _ _ _ _ _ _ _ _ Ha12 Ha3) as Ha.
      destruct Ha12 as [E12 F12 _ _ _ O12 _ _ _], Ha1 as [E1 _ _ _ _ _ _ _ _].
      rewrite F12, E12, O12 in Ha.
      cbn [collect_observations length]. rewrite E1 in Ha.
      replace (opened w + (1 + 0)) with (S (opened w)) in Ha by lia.
      rewrite <- app_assoc in Ha. exact Ha.
Qed.

Lemma log_time_series_exact d : forall w,
  exists w',
    log_time_series d w = (Return tt, w')
    /\ advance w w' (series_logs (environ w) d) 0 0.
Proof.
  induction d as [|[s ts] d IH]; intros w.
  - exists w. split; [reflexivity|apply advance_refl].
  - destruct (IH (record (LogCall INFO "Sensor %s: %.2f" [AStr s; ASeries ts]) w))
      as (w' & Hl & Ha).
    exists w'. split; [exact Hl|].
    apply (advance_trans _ _ _ _ _ 0 0 0 0 (advance_record _ w) Ha).
Qed.

Lemma async_main_observations arguments w pw :
  environ w !! STANLEY_PASSWORD = Some pw ->
  observations_of (async_main arguments) w = run_observations arguments w pw
  /\ (async_main arguments w).1
     = server w
         (build_readings
            (dict_update []
               (occurrences (files w) (clock w) (localzone w) (opened w)
                  (asked w) (sensor arguments)))).
Proof.
  intros Hpw.
  set (stanley := mkClient (url arguments) (ca_cert arguments)
                    (username arguments) pw).
  set (env' := delete STANLEY_PASSWORD (environ w)).
  set (d := dict_update []
              (occurrences (files w) (clock w) (localzone w) (opened w)
                 (asked w) (sensor arguments))).
  set (readings := build_readings d).
  set (w7 := mkWorld env' (files w) (clock w) (localzone w) (server w)
               (opened w) (asked w) (select_level (verbose arguments))
               (trace w ++
                [(BasicConfig (select_level (verbose arguments)), environ w);
                 (EnvironGet STANLEY_PASSWORD, environ w);
                 (LogCall DEBUG "Removing password from environment" [], environ w);
                 (EnvironDel STANLEY_PASSWORD, env');
                 (LogCall DEBUG "Using Stanley server %s" [AStr (url arguments)], env');
                 (NewClient stanley, env');
                 (GetLocalzone, env')])).
  destruct (collect_exact (localzone w) (sensor arguments) [] w7)
    as (w8 & Hc & Ha8).
  destruct (log_time_series_exact
              (dict_update []
                 (occurrences (files w7) (clock w7) (localzone w) (opened w7)
                    (asked w7) (sensor arguments))) w8)
    as (w9 & Hl & Ha9).
  destruct Ha8 as [E8 _ _ _ S8 _ _ T8 _], Ha9 as [E9 _ _ _ S9 _ _ T9 _].
  assert (Hrun : async_main arguments w
    = match server w readings with
      | Return _ =>
          (Return tt,
           record (LogCall INFO "All done" [])
             (record (PostReadings stanley readings)
                (record (LogCall INFO "Sending values to Stanley server..." []) w9)))
      | Raise e =>
          (Raise e,
           record (PostReadings stanley readings)
             (record (LogCall INFO "Sending values to Stanley server..." []) w9))
      end).
  { step. rewrite Hpw. step. rewrite Hpw. step.
    rewrite <- !app_assoc. cbn [app].
    fold env' stanley.
    match goal with
    | |- context [collect_time_series _ _ _ ?x] => change x with w7
    end.
    rewrite Hc, Hl.
    match goal with
    | |- context [server w9 ?r] =>
        replace (server w9 r) with (server w readings)
          by (rewrite S9, S8; reflexivity)
    end.
    destruct (server w readings); rewrite <- ?app_assoc; reflexivity. }
  assert (Henv9 : environ w9 = env') by (now rewrite E9, E8).
  split.
  - apply observations_of_advance. rewrite Hrun.
    unfold run_observations. fold env' stanley d readings.
    destruct (server w readings); cbn [snd record trace environ];
      rewrite Henv9, T9, T8, E8; unfold w7; cbn [trace environ files opened];
      rewrite <- ?app_assoc; reflexivity.
  - rewrite Hrun. destruct (server w readings) as [[]|e]; reflexivity.
Qed.

(** X14.  With the password set, a run does exactly this, in this order:
    configure logging, read and delete the password, build the client,
    ask the time zone, then for each sensor open its file (logging on
    success) and ask the clock, then log each series, announce and post
    the readings, and log the end if the post returns.  The run ends as
    the post ends. *)
Theorem run_trace arguments w pw :
  environ w !! STANLEY_PASSWORD = Some pw ->
  observations_of (async_main arguments) w = run_observations arguments w pw
  /\ (async_main arguments w).1
     = server w
         (build_readings
            (dict_update []
               (occurrences (files w) (clock w) (localzone w) (opened w)
                  (asked w) (sensor arguments)))).
Proof. exact (async_main_observations arguments w pw). Qed.


Lemma run_trace_witness :
  (fst <$> observations_of (async_main (sample_arguments ["28-000004"]))
             (sample_world sample_environ)) !! 7
  = Some (OpenFile "/sys/bus/w1/devices/28-000004/w1_slave").
Proof.
  destruct (run_trace (sample_arguments ["28-000004"])
              (sample_world sample_environ) "secret") as [Hobs _].
  - vm_compute. reflexivity.
  - rewrite Hobs. vm_compute. reflexivity.
Defined.

Lemma collect_observations_not_done fs env sensors : forall n,
  Forall (fun o : observation => o.1 <> LogCall INFO "All done" [])
    (collect_observations fs env n sensors).
Proof.
  induction sensors as [|s rest IH]; intros n; [constructor|].
  cbn [collect_observations]. apply Forall_app. split.
  - unfold reader_observations. constructor; [discriminate|].
    destruct (fs n (sensor_path s)) as [| |content]; try constructor.
    destruct (report_temperature content); repeat constructor. discriminate.
  - constructor; [discriminate|apply IH].
Qed.

Lemma series_logs_not_done env (d : dict series) :
  Forall (fun o : observation => o.1 <> LogCall INFO "All done" [])
    (series_logs env d).
Proof.
  unfold series_logs. apply Forall_fmap, Forall_forall.
  intros item _. discriminate.
Qed.

(** X15.  With the password set, the process exits with status 0 exactly
    when the post returns.  When the post raises, the same exception
    leaves [async_main], the status is 1, the sensors had all been read,
    the post was attempted once, and "All done" is not logged. *)
Theorem exit_status_follows_submission arguments w pw :
  environ w !! STANLEY_PASSWORD = Some pw ->
  let stanley :=
    mkClient (url arguments) (ca_cert arguments) (username arguments) pw in
  let readings :=
    build_readings
      (dict_update []
         (occurrences (files w) (clock w) (localzone w) (opened w) (asked w)
            (sensor arguments))) in
  ((main arguments w).1 = 0%Z <-> exists u, server w readings = Return u)
  /\ (forall e,
        server w readings = Raise e ->
        (async_main arguments w).1 = Raise e
        /\ (main arguments w).1 = 1%Z
        /\ posted (observations_of (async_main arguments) w)
           = [(stanley, readings)]
        /\ sensor_io (observations_of (async_main arguments) w)
           = sensor_calls (sensor arguments)
        /\ Forall (fun o : observation => o.1 <> LogCall INFO "All done" [])
             (observations_of (async_main arguments) w)).
Proof.
  intros Hpw stanley readings.
  destruct (async_main_observations arguments w pw Hpw) as [Hobs Hout].
  destruct (async_main_run arguments w pw Hpw)
    as (after & Hobs' & _ & Hposted & Hio & _ & _).
  fold readings in Hout. split.
  - unfold main. destruct (async_main arguments w) as [[u|e] w'];
      cbn [fst] in *; rewrite <- Hout; split; eauto; try discriminate.
    intros [u [=]].
  - intros e He. rewrite He in Hout. split; [exact Hout|]. split; [|split; [|split]].
    + unfold main. destruct (async_main arguments w) as [[u|e'] w'];
        [discriminate Hout|reflexivity].
    + rewrite Hobs', posted_app, Hposted. reflexivity.
    + rewrite Hobs'. rewrite sensor_io_prologue; [exact Hio|reflexivity].
    + rewrite Hobs. unfold run_observations. fold readings. rewrite He.
      repeat (apply Forall_app; split);
        auto using collect_observations_not_done, series_logs_not_done;
        repeat (constructor; [discriminate|]); constructor.
Qed.

Lemma exit_status_follows_submission_witness :
  (main (sample_arguments ["28-000001"]) (sample_world sample_environ)).1 = 0%Z.
Proof.
  destruct (exit_status_follows_submission (sample_arguments ["28-000001"])
              (sample_world sample_environ) "secret") as [[_ Hexit] _].
  - vm_compute. reflexivity.
  - apply Hexit. exists tt. reflexivity.
Defined.

(** X16.  A sensor whose file cannot be opened or read does not stop the
    run: the payload still holds its series, with the not-a-number
    value, and the run ends as the post ends. *)
Theorem unreadable_sensor_is_submitted_as_nan arguments w pw i s :
  environ w !! STANLEY_PASSWORD = Some pw ->
  sensor arguments !! i = Some s ->
  (forall j, i < j -> sensor arguments !! j <> Some s) ->
  (forall content,
     files w (opened w + i) (sensor_path s) <> Holds content) ->
  exists stanley readings,
    posted (observations_of (async_main arguments) w) = [(stanley, readings)]
    /\ dict_get (series_name s) readings
       = Some [(mkDatetime (clock w (asked w + i)) (localzone w), nan)]
    /\ (async_main arguments w).1 = server w readings.
Proof.
  intros Hpw Hi Hlast Hfile.
  destruct (async_main_run arguments w pw Hpw)
    as (after & Hobs & _ & Hposted & _ & _ & Hout).
  eexists _, _. split; [|split; [|exact Hout]].
  - rewrite Hobs, posted_app, Hposted. reflexivity.
  - rewrite build_readings_fresh
      by (rewrite collected_keys; apply first_occurrences_NoDup).
    rewrite dict_get_rename.
    assert (Hnan : reading (files w) (opened w + i) s = nan).
    { unfold reading.
      destruct (files w (opened w + i) (sensor_path s)) as [| |content] eqn:Hf;
        [reflexivity|reflexivity|]. now contradiction (Hfile content). }
    rewrite <- Hnan. eapply dict_update_get_last.
    + apply occurrences_lookup. exact Hi.
    + intros j v' Hj Hocc. apply (Hlast j Hj).
      pose proof (occurrences_keys (files w) (clock w) (localzone w)
                    (sensor arguments) (opened w) (asked w)) as Hk.
      unfold dict_keys in Hk. rewrite <- Hk, list_lookup_fmap.
      exact (f_equal (fmap fst) Hocc).
Qed.

Lemma unreadable_sensor_is_submitted_as_nan_witness :
  exists stanley readings,
    posted (observations_of
              (async_main (sample_arguments ["28-000001"; "28-000004"]))
              (sample_world sample_environ)) = [(stanley, readings)]
    /\ dict_get "/sensors/temperature/28-000004" readings
       = Some [(mkDatetime 1572868801 "Europe/Copenhagen", nan)].
Proof.
  destruct (unreadable_sensor_is_submitted_as_nan
              (sample_arguments ["28-000001"; "28-000004"])
              (sample_world sample_environ) "secret" 1 "28-000004")
    as (stanley & readings & Hposted & Hget & _).
  - vm_compute. reflexivity.
  - reflexivity.
  - intros [|[|j]] Hj; [lia|lia|discriminate].
  - intros content. vm_compute. discriminate.
  - exists stanley, readings. split; [exact Hposted|exact Hget].
Defined.

Lemma first_line_match_shape_witness :
  exists (a : string) (w1 w2 : ascii) (flag rest : string),
    "72 01 4b 46 7f ff 0e 10 57 : crc=57 YES"
    = a +:+ ": crc=" +:+ String w1 (String w2 " ") +:+ flag +:+ rest
    /\ (flag = "YES" \/ flag = "NO").
Proof.
  destruct (first_line_match_shape "72 01 4b 46 7f ff 0e 10 57 : crc=57 YES"
              (mkMatch 39 [("valid", list_ascii_of_string "YES");
                           ("1", list_ascii_of_string "57")]))
    as (a & w1 & w2 & flag & rest & Hline & _ & _ & _ & Hflag & _).
  - vm_compute. reflexivity.
  - now exists a, w1, w2, flag, rest.
Defined.

Lemma second_line_match_shape_witness :
  exists (a text rest : string) (N : Z),
    "72 01 4b 46 7f ff 0e 10 57 t=21562" = a +:+ "t=" +:+ text +:+ rest
    /\ int_value text = Some N.
Proof.
  destruct (second_line_match_shape "72 01 4b 46 7f ff 0e 10 57 t=21562"
              (mkMatch 34 [("temperature", list_ascii_of_string "21562")]))
    as (a & text & rest & N & Hline & _ & _ & HN & _).
  - vm_compute. reflexivity.
  - now exists a, text, rest, N.
Defined.


